(** * Coffee sales dashboard: the data-preparation part of [app.py]

    [app.py] is a top-level script.  After the table is loaded and its
    [Month_name] column is made categorical (lines 39-49), six preparation
    blocks (lines 51-152) compute the tables and the peak labels that the rest
    of the script only displays.  This file embeds those lines and proves
    properties of them.

    Conventions of the embedding.
    - A pandas frame is a header (the list of its column names) and a list of
      rows; a cell is [None] when it is null (NaN).
    - [Money] and the share percentages are floats in the source.  They are
      taken here in exact arithmetic ([Z] for amounts in minor units, [Q] for
      percentages): statements about sums are statements about exact sums.
    - The column the source calls [Weekdaysort] is the [Weekday_sort] of the
      specification.
    - A Python exception is a value [Raise e]; an uncaught one ends the
      script.
    - pandas operations are modelled after their documented behaviour:
      [groupby] drops rows with a null key and returns the groups in key
      order; [value_counts] drops nulls and ranks by decreasing count, equal
      counts staying in order of first appearance; [idxmax] returns the first
      label that carries the maximum and raises [ValueError] on an empty
      series; [pd.Categorical] turns a value outside its categories into
      null; [reindex] looks every new label up and leaves null where it is
      absent.  The sorts are modelled by a stable insertion sort. *)

From Stdlib Require Import String Ascii List ZArith QArith Bool Lia.
From Stdlib Require Import Permutation Sorted.
Import ListNotations.

Local Open Scope string_scope.
Local Open Scope list_scope.
Local Open Scope Z_scope.

(** ** Exceptions *)

Inductive exn : Type :=
| KeyError (column : string)
| ValueError.

Inductive outcome (A : Type) : Type :=
| Ok (a : A)
| Raise (e : exn).

Arguments Ok {A} a.
Arguments Raise {A} e.

Definition bind {A B : Type} (m : outcome A) (f : A -> outcome B) : outcome B :=
  match m with
  | Ok a => f a
  | Raise e => Raise e
  end.

Notation "x <- m ;; k" := (bind m (fun x => k))
  (at level 61, m at next level, right associativity).

(** [try: body except ValueError: handler] *)
Definition try_except_ValueError {A : Type} (body handler : outcome A)
  : outcome A :=
  match body with
  | Raise ValueError => handler
  | other => other
  end.

(** ** Frames *)

Record Row : Type := {
  Weekday : option string;
  Weekdaysort : option Z;
  Hour_of_Day : option Z;
  Month_name : option string;
  Coffee_Name : option string;
  Money : option Z
}.

Record DataFrame : Type := {
  columns : list string;
  rows : list Row
}.

(** ['c' in df.columns] *)
Definition has_column (c : string) (df : DataFrame) : bool :=
  existsb (String.eqb c) (columns df).

(** [df[c]], and [df.groupby(c)]: a [KeyError] when the column is absent. *)
Definition getitem {A : Type} (c : string) (field : Row -> A) (df : DataFrame)
  : outcome (list A) :=
  if has_column c df then Ok (map field (rows df)) else Raise (KeyError c).

(** The initial value ["N/A"] of the peak labels. *)
Inductive peak (A : Type) : Type :=
| NA
| Val (a : A).

Arguments NA {A}.
Arguments Val {A} a.

(** ** The pandas operations the script calls *)

Section Series.
Context {K : Type} (K_eqb : K -> K -> bool).

(** Add [v] to the group of [k], opening a new group at the end when [k]
    has none yet. *)
Fixpoint accumulate (k : K) (v : Z) (t : list (K * Z)) : list (K * Z) :=
  match t with
  | [] => [(k, v)]
  | (k', v') :: t' =>
      if K_eqb k' k then (k', v' + v) :: t'
      else (k', v') :: accumulate k v t'
  end.

(** Groups in order of first appearance, each with the sum of its values. *)
Definition aggregate (kvs : list (K * Z)) : list (K * Z) :=
  fold_left (fun t kv => accumulate (fst kv) (snd kv) t) kvs [].

Fixpoint lookup {V : Type} (k : K) (t : list (K * V)) : option V :=
  match t with
  | [] => None
  | (k', v) :: t' => if K_eqb k' k then Some v else lookup k t'
  end.

(** [.reindex(index)] *)
Definition reindex (index : list K) (t : list (K * Z)) : list (K * option Z) :=
  map (fun k => (k, lookup k t)) index.

(** [.fillna(d)] *)
Definition fillna (d : Z) (t : list (K * option Z)) : list (K * Z) :=
  map (fun e => (fst e, match snd e with Some v => v | None => d end)) t.
End Series.

(** Rows with a null key are left out ([dropna=True], the default). *)
Fixpoint dropna {K V : Type} (l : list (option K * V)) : list (K * V) :=
  match l with
  | [] => []
  | (Some k, v) :: l' => (k, v) :: dropna l'
  | (None, _) :: l' => dropna l'
  end.

Section Sorting.
Context {A : Type} (leb : A -> A -> bool).

Fixpoint insert_sorted (x : A) (l : list A) : list A :=
  match l with
  | [] => [x]
  | y :: l' => if leb x y then x :: l else y :: insert_sorted x l'
  end.

(** Stable: of two elements that compare equal, the one that came first
    stays first. *)
Definition sort_by (l : list A) : list A := fold_right insert_sorted [] l.
End Sorting.

Section Maximum.
Context {K V : Type} (V_ltb : V -> V -> bool).

Fixpoint argmax_from (best : K * V) (t : list (K * V)) : K * V :=
  match t with
  | [] => best
  | e :: t' => if V_ltb (snd best) (snd e) then argmax_from e t'
               else argmax_from best t'
  end.

(** The first entry that carries the maximum; none in an empty series. *)
Definition first_max (t : list (K * V)) : option (K * V) :=
  match t with
  | [] => None
  | e :: t' => Some (argmax_from e t')
  end.

(** [.idxmax()] *)
Definition idxmax (t : list (K * V)) : outcome K :=
  match first_max t with
  | Some e => Ok (fst e)
  | None => Raise ValueError
  end.
End Maximum.

(** [Series.value_counts()] *)
Definition value_counts {K : Type} (K_eqb : K -> K -> bool)
  (s : list (option K)) : list (K * Z) :=
  sort_by (fun a b => snd b <=? snd a)
          (aggregate K_eqb (dropna (map (fun k => (k, 1)) s))).

(** [Series.value_counts(normalize=True) * 100] *)
Definition value_counts_normalize_100 {K : Type} (K_eqb : K -> K -> bool)
  (s : list (option K)) : list (K * Q) :=
  let counts := value_counts K_eqb s in
  let total := fold_right Z.add 0 (map snd counts) in
  map (fun e => (fst e, (inject_Z (snd e) / inject_Z total * inject_Z 100)%Q))
      counts.

(** [.groupby(keys)[...].sum()] and [.groupby(keys).size()] for a key order
    [K_leb]. *)
Definition groupby_sum {K : Type} (K_eqb K_leb : K -> K -> bool)
  (l : list (option K * Z)) : list (K * Z) :=
  sort_by (fun a b => K_leb (fst a) (fst b)) (aggregate K_eqb (dropna l)).

Definition groupby_size {K : Type} (K_eqb K_leb : K -> K -> bool)
  (keys : list (option K)) : list (K * Z) :=
  groupby_sum K_eqb K_leb (map (fun k => (k, 1)) keys).

Definition Qltb (a b : Q) : bool := negb (Qle_bool b a).

(** ** Lines 41-49: the month categories *)

Definition month_order : list string :=
  ["January"; "February"; "March"; "April"; "May"; "June";
   "July"; "August"; "September"; "October"; "November"; "December"].

Definition in_categories (categories : list string) (s : string) : bool :=
  existsb (String.eqb s) categories.

(** [pd.Categorical(values, categories=..., ordered=True)], cell by cell. *)
Definition Categorical (categories : list string) (v : option string)
  : option string :=
  match v with
  | Some s => if in_categories categories s then Some s else None
  | None => None
  end.

Definition set_Month_name (v : option string) (r : Row) : Row :=
  {| Weekday := Weekday r; Weekdaysort := Weekdaysort r;
     Hour_of_Day := Hour_of_Day r; Month_name := v;
     Coffee_Name := Coffee_Name r; Money := Money r |}.

Definition warning_months : string :=
  "Advertencia: No todos los meses esperados están en los datos.".

(** [df['Month_name'] = values] on a frame that has the column. *)
Definition assign_Month_name (values : list (option string)) (rs : list Row)
  : list Row :=
  map (fun vr => set_Month_name (fst vr) (snd vr)) (combine values rs).

(** Lines 39-49.  The result is the prepared frame and the warnings shown.
    [df['Month_name']] raises [KeyError] when the column is absent, which
    [except ValueError] does not catch. *)
Definition prepare (df_raw : DataFrame) : outcome (DataFrame * list string) :=
  try_except_ValueError
    (col <- getitem "Month_name" Month_name df_raw ;;
     Ok ({| columns := columns df_raw;
            rows := assign_Month_name (map (Categorical month_order) col)
                                      (rows df_raw) |}, []))
    (Ok (df_raw, [warning_months])).

(** Position of a month among the categories (its code). *)
Fixpoint code_in (categories : list string) (s : string) : nat :=
  match categories with
  | [] => O
  | c :: cs => if String.eqb c s then O else S (code_in cs s)
  end.

Definition month_leb (a b : string) : bool :=
  Nat.leb (code_in month_order a) (code_in month_order b).

(** ** Lines 51-152: the six preparation blocks *)

Definition weekday_key (r : Row) : option (string * Z) :=
  match Weekday r, Weekdaysort r with
  | Some w, Some s => Some (w, s)
  | _, _ => None
  end.

Definition weekday_key_eqb (a b : string * Z) : bool :=
  String.eqb (fst a) (fst b) && (snd a =? snd b).

(** Key order of [groupby(['Weekday', 'Weekdaysort'])]: by name, then by
    sort key. *)
Definition weekday_key_leb (a b : string * Z) : bool :=
  if String.eqb (fst a) (fst b) then snd a <=? snd b
  else String.leb (fst a) (fst b).

(** [.sort_values('Weekdaysort')] *)
Definition sort_values_Weekdaysort (t : list (string * Z * Z))
  : list (string * Z * Z) :=
  sort_by (fun a b => snd (fst a) <=? snd (fst b)) t.

(** A null amount adds nothing to its group's sum. *)
Definition amount (r : Row) : Z :=
  match Money r with
  | Some m => m
  | None => 0
  end.

(** *** 1. Revenue by weekday (lines 54-63) *)

Record IngresoPorDia : Type := {
  sales_by_day_money : option (list (string * Z * Z));
  dia_pico_ingresos : peak string
}.

Definition prep_ingreso_por_dia (df : DataFrame) : outcome IngresoPorDia :=
  if has_column "Weekday" df && has_column "Money" df
     && has_column "Weekdaysort" df
  then
    let grouped :=
      groupby_sum weekday_key_eqb weekday_key_leb
                  (map (fun r => (weekday_key r, amount r)) (rows df)) in
    let sorted := sort_values_Weekdaysort grouped in
    (* line 63: no check that the table has a row *)
    label <- idxmax Z.ltb sorted ;;
    Ok {| sales_by_day_money := Some sorted;
          dia_pico_ingresos := Val (fst label) |}
  else Ok {| sales_by_day_money := None; dia_pico_ingresos := NA |}.

(** *** 2. Best seller and its monthly trend (lines 68-87) *)

Record CafeEstrella : Type := {
  cafe_mas_vendido_ano : peak string;
  ventas_cafe_estrella_mes : option (list (string * Z));
  mes_pico_estrella : peak string;
  max_ventas_estrella : Z
}.

(** [df['Coffee_Name'] == name]: a null cell equals nothing. *)
Definition coffee_is (name : string) (r : Row) : bool :=
  match Coffee_Name r with
  | Some c => String.eqb c name
  | None => false
  end.

(** [groupby('Month_name').size()], then [reindex(month_order).fillna(0)]. *)
Definition monthly_sales (months : list (option string)) : list (string * Z) :=
  fillna 0 (reindex String.eqb month_order
                    (groupby_size String.eqb month_leb months)).

Definition prep_cafe_estrella (df : DataFrame) : outcome CafeEstrella :=
  if has_column "Coffee_Name" df then
    (* line 75 *)
    top <- idxmax Z.ltb (value_counts String.eqb (map Coffee_Name (rows df))) ;;
    (* line 78 *)
    let df_cafe_mas_vendido :=
      {| columns := columns df; rows := filter (coffee_is top) (rows df) |} in
    (* lines 81-83: [Month_name] is read without a check on the columns *)
    months <- getitem "Month_name" Month_name df_cafe_mas_vendido ;;
    let ventas := monthly_sales months in
    (* lines 86-87: the maximum and the first label that carries it *)
    match first_max Z.ltb ventas with
    | Some (mes, ventas_max) =>
        Ok {| cafe_mas_vendido_ano := Val top;
              ventas_cafe_estrella_mes := Some ventas;
              mes_pico_estrella := Val mes;
              max_ventas_estrella := ventas_max |}
    | None => Raise ValueError
    end
  else Ok {| cafe_mas_vendido_ano := NA; ventas_cafe_estrella_mes := None;
             mes_pico_estrella := NA; max_ventas_estrella := 0 |}.

(** *** 3. Sales by hour (lines 92-103) *)

Record VentasPorHora : Type := {
  sales_by_hour : option (list (Z * Z));
  peak_hour : peak Z;
  sales_at_peak : Z
}.

(** [.sort_index()] *)
Definition sort_index (t : list (Z * Z)) : list (Z * Z) :=
  sort_by (fun a b => fst a <=? fst b) t.

Definition prep_ventas_por_hora (df : DataFrame) : outcome VentasPorHora :=
  if has_column "Hour_of_Day" df then
    let counts := sort_index (value_counts Z.eqb (map Hour_of_Day (rows df))) in
    (* lines 101-103: [if not sales_by_hour.empty] *)
    match first_max Z.ltb counts with
    | Some (hour, n) =>
        Ok {| sales_by_hour := Some counts; peak_hour := Val hour;
              sales_at_peak := n |}
    | None =>
        Ok {| sales_by_hour := Some counts; peak_hour := NA;
              sales_at_peak := 0 |}
    end
  else Ok {| sales_by_hour := None; peak_hour := NA; sales_at_peak := 0 |}.

(** *** 4. Share of each coffee (lines 108-119) *)

Record PorcentajesCafe : Type := {
  porcentajes_cafe : option (list (string * Q));
  top_coffee_name : peak string;
  top_coffee_percent : Q
}.

Definition prep_porcentajes_cafe (df : DataFrame) : outcome PorcentajesCafe :=
  if has_column "Coffee_Name" df then
    let shares :=
      value_counts_normalize_100 String.eqb (map Coffee_Name (rows df)) in
    match first_max Qltb shares with
    | Some (name, share) =>
        Ok {| porcentajes_cafe := Some shares; top_coffee_name := Val name;
              top_coffee_percent := share |}
    | None =>
        Ok {| porcentajes_cafe := Some shares; top_coffee_name := NA;
              top_coffee_percent := 0%Q |}
    end
  else Ok {| porcentajes_cafe := None; top_coffee_name := NA;
             top_coffee_percent := 0%Q |}.

(** *** 5. Transactions by weekday (lines 124-134) *)

Record VolumenPorDia : Type := {
  sales_volume_by_weekday : option (list (string * Z * Z));
  peak_sales_day : peak string
}.

Definition prep_volumen_por_dia (df : DataFrame) : outcome VolumenPorDia :=
  if has_column "Weekday" df && has_column "Weekdaysort" df then
    let sorted :=
      sort_values_Weekdaysort
        (groupby_size weekday_key_eqb weekday_key_leb
                      (map weekday_key (rows df))) in
    match first_max Z.ltb sorted with
    | Some (label, _) =>
        Ok {| sales_volume_by_weekday := Some sorted;
              peak_sales_day := Val (fst label) |}
    | None =>
        Ok {| sales_volume_by_weekday := Some sorted; peak_sales_day := NA |}
    end
  else Ok {| sales_volume_by_weekday := None; peak_sales_day := NA |}.

(** *** 6. Transactions by month (lines 139-152) *)

Record VolumenPorMes : Type := {
  sales_volume_by_month : option (list (string * Z));
  peak_sales_month : peak string;
  peak_sales_month_volume : Z
}.

Definition prep_volumen_por_mes (df : DataFrame) : outcome VolumenPorMes :=
  if has_column "Month_name" df then
    let ventas := monthly_sales (map Month_name (rows df)) in
    match first_max Z.ltb ventas with
    | Some (mes, n) =>
        Ok {| sales_volume_by_month := Some ventas; peak_sales_month := Val mes;
              peak_sales_month_volume := n |}
    | None =>
        Ok {| sales_volume_by_month := Some ventas; peak_sales_month := NA;
              peak_sales_month_volume := 0 |}
    end
  else Ok {| sales_volume_by_month := None; peak_sales_month := NA;
             peak_sales_month_volume := 0 |}.

(** ** The script: the module-level variables and one run *)

Record Globals : Type := {
  ingreso_por_dia : IngresoPorDia;
  cafe_estrella : CafeEstrella;
  ventas_por_hora : VentasPorHora;
  porcentajes : PorcentajesCafe;
  volumen_por_dia : VolumenPorDia;
  volumen_por_mes : VolumenPorMes
}.

Definition set_ingreso_por_dia (b : IngresoPorDia) (g : Globals) : Globals :=
  {| ingreso_por_dia := b; cafe_estrella := cafe_estrella g;
     ventas_por_hora := ventas_por_hora g; porcentajes := porcentajes g;
     volumen_por_dia := volumen_por_dia g;
     volumen_por_mes := volumen_por_mes g |}.

Definition set_cafe_estrella (b : CafeEstrella) (g : Globals) : Globals :=
  {| ingreso_por_dia := ingreso_por_dia g; cafe_estrella := b;
     ventas_por_hora := ventas_por_hora g; porcentajes := porcentajes g;
     volumen_por_dia := volumen_por_dia g;
     volumen_por_mes := volumen_por_mes g |}.

Definition set_ventas_por_hora (b : VentasPorHora) (g : Globals) : Globals :=
  {| ingreso_por_dia := ingreso_por_dia g; cafe_estrella := cafe_estrella g;
     ventas_por_hora := b; porcentajes := porcentajes g;
     volumen_por_dia := volumen_por_dia g;
     volumen_por_mes := volumen_por_mes g |}.

Definition set_porcentajes (b : PorcentajesCafe) (g : Globals) : Globals :=
  {| ingreso_por_dia := ingreso_por_dia g; cafe_estrella := cafe_estrella g;
     ventas_por_hora := ventas_por_hora g; porcentajes := b;
     volumen_por_dia := volumen_por_dia g;
     volumen_por_mes := volumen_por_mes g |}.

Definition set_volumen_por_dia (b : VolumenPorDia) (g : Globals) : Globals :=
  {| ingreso_por_dia := ingreso_por_dia g; cafe_estrella := cafe_estrella g;
     ventas_por_hora := ventas_por_hora g; porcentajes := porcentajes g;
     volumen_por_dia := b;
     volumen_por_mes := volumen_por_mes g |}.

Definition set_volumen_por_mes (b : VolumenPorMes) (g : Globals) : Globals :=
  {| ingreso_por_dia := ingreso_por_dia g; cafe_estrella := cafe_estrella g;
     ventas_por_hora := ventas_por_hora g; porcentajes := porcentajes g;
     volumen_por_dia := volumen_por_dia g;
     volumen_por_mes := b |}.

(** The blocks run in the order of the file; each assigns its own variables
    and leaves the others as they were.  The first exception ends the run. *)
Definition preparation (df : DataFrame) (g : Globals) : outcome Globals :=
  b1 <- prep_ingreso_por_dia df ;;
  let g := set_ingreso_por_dia b1 g in
  b2 <- prep_cafe_estrella df ;;
  let g := set_cafe_estrella b2 g in
  b3 <- prep_ventas_por_hora df ;;
  let g := set_ventas_por_hora b3 g in
  b4 <- prep_porcentajes_cafe df ;;
  let g := set_porcentajes b4 g in
  b5 <- prep_volumen_por_dia df ;;
  let g := set_volumen_por_dia b5 g in
  b6 <- prep_volumen_por_mes df ;;
  Ok (set_volumen_por_mes b6 g).

(** Lines 39-152 from the loaded table. *)
Definition run (df_raw : DataFrame) (g : Globals)
  : outcome (Globals * list string) :=
  prepared <- prepare df_raw ;;
  g' <- preparation (fst prepared) g ;;
  Ok (g', snd prepared).

(** ** Line 412: a share printed with one decimal *)



(** ** Lines 155-444: what the page draws

    Only the choice each section makes between its content and its
    [st.info] message is embedded, with the two series reductions the
    content calls; charts and number formats are left out. *)





Definition series_min {K : Type} (t : list (K * Z)) : option Z :=
  match t with
  | [] => None
  | e :: t' => Some (fold_left Z.min (map snd t') (snd e))
  end.

(** Line 363. *)
Definition min_ventas_estrella (b : CafeEstrella) : option Z :=
  match ventas_cafe_estrella_mes b with
  | Some t => series_min t
  | None => None
  end.





(** ** Line 298: the order of the bars of the hour chart *)

(** [Series.unique()]: the values in order of first appearance. *)
Fixpoint unique {K : Type} (K_eqb : K -> K -> bool) (l : list K) : list K :=
  match l with
  | [] => []
  | x :: l' => x :: filter (fun y => negb (K_eqb x y)) (unique K_eqb l')
  end.

(** [sorted(...)] on integers. *)
Definition sorted (l : list Z) : list Z := sort_by Z.leb l.

(** * Vocabulary of the statements *)

(** ** Measures *)

Definition total {K : Type} (t : list (K * Z)) : Z :=
  fold_right Z.add 0 (map snd t).


Definition sum_of {R : Type} (val : R -> Z) (rs : list R) : Z :=
  fold_right Z.add 0 (map val rs).

(** What a group must hold, read off the rows: whether the key occurs, and
    the sum of the values that carry it. *)
Definition occurs {K : Type} (K_eqb : K -> K -> bool) (k : K)
  (kvs : list (K * Z)) : bool :=
  existsb (fun kv => K_eqb (fst kv) k) kvs.

Definition sum_for {K : Type} (K_eqb : K -> K -> bool) (k : K)
  (kvs : list (K * Z)) : Z :=
  total (filter (fun kv => K_eqb (fst kv) k) kvs).

(** ** Rows *)

Definition present {A : Type} (c : option A) : bool :=
  match c with
  | Some _ => true
  | None => false
  end.

(** The row's key cell holds [k]. *)
Definition key_is {R K : Type} (K_eqb : K -> K -> bool) (key : R -> option K)
  (k : K) (r : R) : bool :=
  match key r with
  | Some k' => K_eqb k' k
  | None => false
  end.

(** Number of rows that satisfy [p], and the sum of their amounts. *)
Definition count_where (p : Row -> bool) (rs : list Row) : Z :=
  Z.of_nat (length (filter p rs)).


(** Number of cells of a column that hold [m]. *)
Definition count_month (m : string) (months : list (option string)) : Z :=
  Z.of_nat (length (filter (fun c => match c with
                                     | Some s => String.eqb s m
                                     | None => false
                                     end) months)).

(** The row's month is one of the twelve categories; after [prepare] this is
    the same as not being null. *)
Definition month_known (r : Row) : bool :=
  match Month_name r with
  | Some s => in_categories month_order s
  | None => false
  end.

(** What line 47 does to one row. *)
Definition categorize (r : Row) : Row :=
  set_Month_name (Categorical month_order (Month_name r)) r.

(** Each weekday name is paired with one sort key in all the rows that
    carry it. *)
Definition one_sort_key_per_weekday (df : DataFrame) : Prop :=
  forall w, In (Some w) (map Weekday (rows df)) ->
    exists s, forall r, In r (rows df) -> Weekday r = Some w ->
                        Weekdaysort r = Some s.

Definition weekday_names (t : list (string * Z * Z)) : list string :=
  map (fun e => fst (fst e)) t.

(** ** Orders and peaks *)

Definition ordered_by {A : Type} (leb : A -> A -> bool) (a b : A) : Prop :=
  leb a b = true.


Definition by_key (x y : Z * Z) : Prop := fst x <= fst y.

Definition by_count_desc {K : Type} (x y : K * Z) : Prop := snd y <= snd x.


(** [e] is the first entry of [t] that carries the maximum: every entry
    before it is strictly smaller and no entry after it is greater. *)
Definition first_with_max {K V : Type} (V_lt : V -> V -> Prop)
  (t : list (K * V)) (e : K * V) : Prop :=
  exists before after,
    t = before ++ e :: after /\
    Forall (fun x => V_lt (snd x) (snd e)) before /\
    Forall (fun x => ~ V_lt (snd e) (snd x)) after.


(** ** Example frames *)

Definition sale (day : string) (daysort hour : Z) (month coffee : string)
  (money : Z) : Row :=
  {| Weekday := Some day; Weekdaysort := Some daysort; Hour_of_Day := Some hour;
     Month_name := Some month; Coffee_Name := Some coffee;
     Money := Some money |}.

(** The header of the sales file. *)
Definition sales_columns : list string :=
  ["Date"; "Weekday"; "Weekdaysort"; "Hour_of_Day"; "Month_name";
   "Coffee_Name"; "Money"].

Definition no_sales : DataFrame := {| columns := sales_columns; rows := [] |}.

Definition coffee_only : DataFrame :=
  {| columns := ["Coffee_Name"];
     rows := [sale "Monday" 1 9 "March" "Latte" 3870] |}.

Definition coffee_and_month_no_rows : DataFrame :=
  {| columns := ["Month_name"; "Coffee_Name"]; rows := [] |}.

Definition null_coffee : DataFrame :=
  {| columns := sales_columns;
     rows := [ {| Weekday := Some "Monday"; Weekdaysort := Some 1;
                  Hour_of_Day := Some 9; Month_name := Some "March";
                  Coffee_Name := None; Money := Some 3870 |} ] |}.

Definition three_sales : DataFrame :=
  {| columns := sales_columns;
     rows := [sale "Monday" 1 9 "March" "Latte" 3870;
              sale "Monday" 1 10 "March" "Latte" 3870;
              sale "Tuesday" 2 9 "April" "Espresso" 2500] |}.

(** Monday and Tuesday both reach 1000. *)
Definition tied_revenue : DataFrame :=
  {| columns := sales_columns;
     rows := [sale "Tuesday" 2 9 "March" "Latte" 1000;
              sale "Monday" 1 10 "March" "Latte" 600;
              sale "Wednesday" 3 9 "April" "Espresso" 500;
              sale "Monday" 1 11 "May" "Espresso" 400] |}.



(** Monday is entered once with sort key 1 and once with sort key 8. *)
Definition monday_twice : DataFrame :=
  {| columns := sales_columns;
     rows := [sale "Monday" 1 9 "March" "Latte" 1000;
              sale "Monday" 8 10 "March" "Latte" 600] |}.

(** A file with one month outside the categories, and what [prepare] makes
    of it. *)
Definition unknown_month : DataFrame :=
  {| columns := sales_columns;
     rows := [sale "Monday" 1 9 "Marzo" "Latte" 3870] |}.

Definition null_month : DataFrame :=
  {| columns := sales_columns;
     rows := [ {| Weekday := Some "Monday"; Weekdaysort := Some 1;
                  Hour_of_Day := Some 9; Month_name := None;
                  Coffee_Name := Some "Latte"; Money := Some 3870 |} ] |}.



(** The module-level variables before the first run. *)
Definition initial_globals : Globals :=
  {| ingreso_por_dia :=
       {| sales_by_day_money := None; dia_pico_ingresos := NA |};
     cafe_estrella :=
       {| cafe_mas_vendido_ano := NA; ventas_cafe_estrella_mes := None;
          mes_pico_estrella := NA; max_ventas_estrella := 0 |};
     ventas_por_hora :=
       {| sales_by_hour := None; peak_hour := NA; sales_at_peak := 0 |};
     porcentajes :=
       {| porcentajes_cafe := None; top_coffee_name := NA;
          top_coffee_percent := 0%Q |};
     volumen_por_dia :=
       {| sales_volume_by_weekday := None; peak_sales_day := NA |};
     volumen_por_mes :=
       {| sales_volume_by_month := None; peak_sales_month := NA;
          peak_sales_month_volume := 0 |} |}.

(** ** The tables, as the blocks build them *)

Definition weekday_money_columns (df : DataFrame) : bool :=
  has_column "Weekday" df && has_column "Money" df
  && has_column "Weekdaysort" df.

Definition weekday_columns (df : DataFrame) : bool :=
  has_column "Weekday" df && has_column "Weekdaysort" df.

Definition revenue_table (df : DataFrame) : list (string * Z * Z) :=
  sort_values_Weekdaysort
    (groupby_sum weekday_key_eqb weekday_key_leb
                 (map (fun r => (weekday_key r, amount r)) (rows df))).

Definition volume_table (df : DataFrame) : list (string * Z * Z) :=
  sort_values_Weekdaysort
    (groupby_size weekday_key_eqb weekday_key_leb (map weekday_key (rows df))).

Definition hour_table (df : DataFrame) : list (Z * Z) :=
  sort_index (value_counts Z.eqb (map Hour_of_Day (rows df))).

Definition ranking (df : DataFrame) : list (string * Z) :=
  value_counts String.eqb (map Coffee_Name (rows df)).

Definition share_table (df : DataFrame) : list (string * Q) :=
  value_counts_normalize_100 String.eqb (map Coffee_Name (rows df)).

Definition month_table (df : DataFrame) : list (string * Z) :=
  monthly_sales (map Month_name (rows df)).

Definition trend_table (top : string) (df : DataFrame) : list (string * Z) :=
  monthly_sales (map Month_name (filter (coffee_is top) (rows df))).

(** Some row has the cell. *)
Definition some_present {A : Type} (cell : Row -> option A) (rs : list Row)
  : bool :=
  existsb (fun r => present (cell r)) rs.

(** The tables the first two blocks need are not empty. *)
Definition peaks_exist (df : DataFrame) : bool :=
  implb (weekday_money_columns df) (some_present weekday_key (rows df))
  && implb (has_column "Coffee_Name" df) (some_present Coffee_Name (rows df)).

(** Number of rows of the coffee [name] in the month [m]. *)
Definition sold_in_month (name m : string) (df : DataFrame) : Z :=
  count_month m (map Month_name (filter (coffee_is name) (rows df))).

(** The share of the coffee [name] among the rows with a coffee name, as
    line 114 computes it. *)
Definition share_of (name : string) (df : DataFrame) : Q :=
  (inject_Z (count_where (coffee_is name) (rows df))
   / inject_Z (count_where (fun r => present (Coffee_Name r)) (rows df))
   * inject_Z 100)%Q.


(** The keys of a table after one more row of key [k]. *)
Fixpoint add_key {K : Type} (K_eqb : K -> K -> bool) (k : K) (ks : list K)
  : list K :=
  match ks with
  | [] => [k]
  | k' :: ks' => if K_eqb k' k then ks else k' :: add_key K_eqb k ks'
  end.

(** * Properties *)

(** ** Sums of a measure column *)

Lemma total_app {K : Type} (a b : list (K * Z)) :
  total (a ++ b) = total a + total b.
Proof.
  unfold total. induction a as [|x a IH]; simpl; [reflexivity|].
  rewrite IH. lia.
Qed.

Lemma total_perm {K : Type} (a b : list (K * Z)) :
  Permutation a b -> total a = total b.
Proof.
  unfold total. induction 1; simpl; lia.
Qed.

(** ** The insertion sort *)

Section SortingFacts.
Context {A : Type} (leb : A -> A -> bool).

Lemma insert_sorted_perm (x : A) (l : list A) :
  Permutation (x :: l) (insert_sorted leb x l).
Proof.
  induction l as [|y l IH]; simpl; [reflexivity|].
  destruct (leb x y); [reflexivity|].
  transitivity (y :: x :: l); [apply perm_swap|].
  now apply perm_skip.
Qed.

Lemma sort_by_perm (l : list A) : Permutation l (sort_by leb l).
Proof.
  induction l as [|x l IH]; simpl; [constructor|].
  transitivity (x :: sort_by leb l); [now apply perm_skip|].
  apply insert_sorted_perm.
Qed.

Lemma sort_by_In (l : list A) (x : A) : In x (sort_by leb l) <-> In x l.
Proof.
  split; apply Permutation_in;
    [symmetry|]; apply sort_by_perm.
Qed.

Lemma sort_by_nil (l : list A) : sort_by leb l = [] -> l = [].
Proof.
  intros H. apply Permutation_nil. rewrite <- H. symmetry.
  apply sort_by_perm.
Qed.

Hypothesis leb_total : forall a b, leb a b = true \/ leb b a = true.
Hypothesis leb_trans :
  forall a b c, leb a b = true -> leb b c = true -> leb a c = true.

Lemma insert_sorted_sorted (x : A) (l : list A) :
  StronglySorted (ordered_by leb) l ->
  StronglySorted (ordered_by leb) (insert_sorted leb x l).
Proof.
  induction l as [|y l IH]; intros Hs; simpl.
  - repeat constructor.
  - apply StronglySorted_inv in Hs. destruct Hs as [Hl Hy].
    destruct (leb x y) eqn:E.
    + constructor; [now constructor|].
      constructor; [exact E|].
      eapply Forall_impl; [|exact Hy].
      intros z Hz. now apply leb_trans with y.
    + constructor; [now apply IH|].
      eapply Permutation_Forall; [apply insert_sorted_perm|].
      constructor; [|exact Hy].
      destruct (leb_total x y) as [H|H]; [congruence|exact H].
Qed.

Lemma sort_by_sorted (l : list A) :
  StronglySorted (ordered_by leb) (sort_by leb l).
Proof.
  induction l as [|x l IH]; simpl; [constructor|].
  now apply insert_sorted_sorted.
Qed.
End SortingFacts.


(** ** Grouping *)

Section GroupFacts.
Context {K : Type} (K_eqb : K -> K -> bool).
Hypothesis K_eqb_eq : forall a b, K_eqb a b = true <-> a = b.

Lemma K_eqb_refl (k : K) : K_eqb k k = true.
Proof. now apply K_eqb_eq. Qed.

Lemma K_eqb_neq (a b : K) : a <> b -> K_eqb a b = false.
Proof.
  intros H. destruct (K_eqb a b) eqn:E; [|reflexivity].
  now apply K_eqb_eq in E.
Qed.

Lemma total_accumulate (k : K) (v : Z) (t : list (K * Z)) :
  total (accumulate K_eqb k v t) = total t + v.
Proof.
  unfold total. induction t as [|[k' v'] t IH]; simpl; [lia|].
  destruct (K_eqb k' k); simpl; [|rewrite IH]; lia.
Qed.

Lemma aggregate_snoc (kvs : list (K * Z)) (k : K) (v : Z) :
  aggregate K_eqb (kvs ++ [(k, v)])
  = accumulate K_eqb k v (aggregate K_eqb kvs).
Proof.
  unfold aggregate. now rewrite fold_left_app.
Qed.

Lemma total_aggregate (kvs : list (K * Z)) :
  total (aggregate K_eqb kvs) = total kvs.
Proof.
  induction kvs as [|[k v] kvs IH] using rev_ind; [reflexivity|].
  rewrite aggregate_snoc, total_accumulate, total_app, IH.
  unfold total. simpl. lia.
Qed.

Lemma lookup_accumulate (k k' : K) (v : Z) (t : list (K * Z)) :
  lookup K_eqb k' (accumulate K_eqb k v t) =
  if K_eqb k k' then
    Some (match lookup K_eqb k' t with Some v0 => v0 + v | None => v end)
  else lookup K_eqb k' t.
Proof.
  induction t as [|[k0 v0] t IH]; simpl.
  - reflexivity.
  - destruct (K_eqb k0 k) eqn:E0.
    + apply K_eqb_eq in E0. subst k0. simpl.
      destruct (K_eqb k k'); reflexivity.
    + simpl. destruct (K_eqb k0 k') eqn:E1.
      * apply K_eqb_eq in E1. subst k0.
        rewrite K_eqb_neq; [reflexivity|].
        intros ->. now rewrite K_eqb_refl in E0.
      * exact IH.
Qed.

Lemma sum_for_absent (k : K) (kvs : list (K * Z)) :
  occurs K_eqb k kvs = false -> sum_for K_eqb k kvs = 0.
Proof.
  unfold occurs, sum_for. induction kvs as [|kv kvs IH]; simpl; [reflexivity|].
  intros H. apply orb_false_iff in H. destruct H as [H1 H2].
  rewrite H1. now apply IH.
Qed.

Lemma lookup_aggregate (k : K) (kvs : list (K * Z)) :
  lookup K_eqb k (aggregate K_eqb kvs) =
  if occurs K_eqb k kvs then Some (sum_for K_eqb k kvs) else None.
Proof.
  induction kvs as [|[k0 v0] kvs IH] using rev_ind; [reflexivity|].
  rewrite aggregate_snoc, lookup_accumulate, IH.
  pose proof (sum_for_absent k kvs) as Habs.
  unfold occurs, sum_for in *.
  rewrite existsb_app, filter_app, total_app. simpl.
  destruct (K_eqb k0 k); simpl.
  - destruct (existsb _ kvs); simpl; f_equal;
      [|rewrite Habs by reflexivity]; unfold total; simpl; lia.
  - rewrite orb_false_r.
    destruct (existsb _ kvs); simpl; f_equal; unfold total; simpl; lia.
Qed.

Lemma occurs_In (k : K) (kvs : list (K * Z)) :
  occurs K_eqb k kvs = true <-> In k (map fst kvs).
Proof.
  unfold occurs. rewrite existsb_exists, in_map_iff. split.
  - intros [kv [Hin He]]. exists kv. apply K_eqb_eq in He. now split.
  - intros [kv [He Hin]]. exists kv. split; [exact Hin|]. now apply K_eqb_eq.
Qed.

Lemma lookup_None (V : Type) (k : K) (t : list (K * V)) :
  lookup K_eqb k t = None <-> ~ In k (map fst t).
Proof.
  induction t as [|[k0 v0] t IH]; simpl.
  - tauto.
  - destruct (K_eqb k0 k) eqn:E.
    + apply K_eqb_eq in E. split; [discriminate|]. intros H. exfalso. tauto.
    + rewrite IH. split; [|tauto].
      intros H [H0|H0]; [|tauto].
      subst k0. now rewrite K_eqb_refl in E.
Qed.

Lemma lookup_In (V : Type) (k : K) (v : V) (t : list (K * V)) :
  NoDup (map fst t) -> (lookup K_eqb k t = Some v <-> In (k, v) t).
Proof.
  induction t as [|[k0 v0] t IH]; simpl; intros Hnd.
  - split; [discriminate|tauto].
  - apply NoDup_cons_iff in Hnd. destruct Hnd as [Hk0 Hnd].
    destruct (K_eqb k0 k) eqn:E.
    + apply K_eqb_eq in E. subst k0. split.
      * intros H. left. congruence.
      * intros [H|H]; [congruence|].
        exfalso. apply Hk0. apply in_map_iff. now exists (k, v).
    + rewrite (IH Hnd). split; [tauto|].
      intros [H|H]; [|exact H].
      inversion H. subst. now rewrite K_eqb_refl in E.
Qed.

Lemma lookup_perm (V : Type) (k : K) (t t' : list (K * V)) :
  NoDup (map fst t) -> Permutation t t' ->
  lookup K_eqb k t' = lookup K_eqb k t.
Proof.
  intros Hnd Hp.
  assert (Hnd' : NoDup (map fst t')).
  { eapply Permutation_NoDup; [|exact Hnd]. now apply Permutation_map. }
  destruct (lookup K_eqb k t) as [v|] eqn:E.
  - apply (lookup_In _ _ _ _ Hnd) in E. apply (lookup_In _ _ _ _ Hnd').
    eapply Permutation_in; eassumption.
  - apply lookup_None in E. apply lookup_None. intros H. apply E.
    eapply Permutation_in; [|exact H].
    apply Permutation_map. now symmetry.
Qed.

Lemma keys_accumulate (k x : K) (v : Z) (t : list (K * Z)) :
  In x (map fst (accumulate K_eqb k v t)) <-> x = k \/ In x (map fst t).
Proof.
  induction t as [|[k0 v0] t IH]; simpl.
  - intuition congruence.
  - destruct (K_eqb k0 k) eqn:E; simpl.
    + apply K_eqb_eq in E. subst k0. intuition congruence.
    + rewrite IH. tauto.
Qed.

Lemma NoDup_accumulate (k : K) (v : Z) (t : list (K * Z)) :
  NoDup (map fst t) -> NoDup (map fst (accumulate K_eqb k v t)).
Proof.
  induction t as [|[k0 v0] t IH]; simpl; intros Hnd.
  - constructor; [tauto|constructor].
  - apply NoDup_cons_iff in Hnd. destruct Hnd as [Hk0 Hnd].
    destruct (K_eqb k0 k) eqn:E; simpl.
    + now constructor.
    + constructor; [|now apply IH].
      rewrite keys_accumulate. intros [H|H]; [|tauto].
      subst k0. now rewrite K_eqb_refl in E.
Qed.

Lemma NoDup_aggregate (kvs : list (K * Z)) :
  NoDup (map fst (aggregate K_eqb kvs)).
Proof.
  induction kvs as [|[k v] kvs IH] using rev_ind; [constructor|].
  rewrite aggregate_snoc. now apply NoDup_accumulate.
Qed.

Lemma keys_aggregate (k : K) (kvs : list (K * Z)) :
  In k (map fst (aggregate K_eqb kvs)) <-> In k (map fst kvs).
Proof.
  induction kvs as [|[k0 v0] kvs IH] using rev_ind; [reflexivity|].
  rewrite aggregate_snoc, keys_accumulate, map_app, in_app_iff, IH.
  simpl. intuition congruence.
Qed.

(** The same facts through [groupby_sum], whose sort only reorders. *)
Context (K_leb : K -> K -> bool).

Lemma groupby_sum_perm (l : list (option K * Z)) :
  Permutation (aggregate K_eqb (dropna l)) (groupby_sum K_eqb K_leb l).
Proof. apply sort_by_perm. Qed.


Lemma NoDup_groupby_sum (l : list (option K * Z)) :
  NoDup (map fst (groupby_sum K_eqb K_leb l)).
Proof.
  eapply Permutation_NoDup; [|apply (NoDup_aggregate (dropna l))].
  apply Permutation_map, groupby_sum_perm.
Qed.

Lemma keys_groupby_sum (k : K) (l : list (option K * Z)) :
  In k (map fst (groupby_sum K_eqb K_leb l)) <-> In k (map fst (dropna l)).
Proof.
  transitivity (In k (map fst (aggregate K_eqb (dropna l))));
    [|apply keys_aggregate].
  split; apply Permutation_in;
    [symmetry|]; apply Permutation_map, groupby_sum_perm.
Qed.

Lemma lookup_groupby_sum (k : K) (l : list (option K * Z)) :
  lookup K_eqb k (groupby_sum K_eqb K_leb l) =
  if occurs K_eqb k (dropna l) then Some (sum_for K_eqb k (dropna l)) else None.
Proof.
  rewrite <- lookup_aggregate. apply lookup_perm.
  - apply NoDup_aggregate.
  - apply groupby_sum_perm.
Qed.
End GroupFacts.

Lemma total_dropna {R K : Type} (key : R -> option K) (val : R -> Z)
  (rs : list R) :
  total (dropna (map (fun r => (key r, val r)) rs))
  = fold_right Z.add 0 (map val (filter (fun r => present (key r)) rs)).
Proof.
  unfold total. induction rs as [|r rs IH]; simpl; [reflexivity|].
  destruct (key r); simpl; [rewrite IH|]; auto.
Qed.

Lemma sum_ones {R : Type} (rs : list R) :
  fold_right Z.add 0 (map (fun _ => 1) rs) = Z.of_nat (length rs).
Proof.
  induction rs as [|r rs IH]; [reflexivity|].
  cbn [map fold_right length]. rewrite Nat2Z.inj_succ, IH. lia.
Qed.

Lemma total_value_counts {R K : Type} (K_eqb : K -> K -> bool)
  (cell : R -> option K) (rs : list R) :
  total (value_counts K_eqb (map cell rs))
  = Z.of_nat (length (filter (fun r => present (cell r)) rs)).
Proof.
  unfold value_counts.
  rewrite <- (total_perm _ _ (sort_by_perm _ _)).
  rewrite total_aggregate, map_map.
  rewrite (total_dropna cell (fun _ => 1)). apply sum_ones.
Qed.

(** ** The first maximum *)

Section MaximumFacts.
Context {K V : Type} (V_ltb : V -> V -> bool) (V_lt : V -> V -> Prop).
Hypothesis V_ltb_lt : forall a b, V_ltb a b = true <-> V_lt a b.
Hypothesis V_lt_trans : forall a b c, V_lt a b -> V_lt b c -> V_lt a c.
Hypothesis V_le_lt_trans : forall a b c, ~ V_lt b a -> V_lt b c -> V_lt a c.

Lemma argmax_from_spec (t : list (K * V)) :
  forall (best : K * V) (b1 b2 : list (K * V)),
    Forall (fun x => V_lt (snd x) (snd best)) b1 ->
    Forall (fun x => ~ V_lt (snd best) (snd x)) b2 ->
    first_with_max V_lt (b1 ++ best :: b2 ++ t) (argmax_from V_ltb best t).
Proof.
  induction t as [|x t IH]; intros best b1 b2 H1 H2; simpl.
  - rewrite app_nil_r. now exists b1, b2.
  - destruct (V_ltb (snd best) (snd x)) eqn:E.
    + apply V_ltb_lt in E.
      replace (b1 ++ best :: b2 ++ x :: t)
        with ((b1 ++ best :: b2) ++ x :: [] ++ t)
        by (now rewrite <- app_assoc).
      apply IH; [|constructor].
      apply Forall_app. split; [|constructor].
      * eapply Forall_impl; [|exact H1]. intros y Hy.
        now apply V_lt_trans with (snd best).
      * exact E.
      * eapply Forall_impl; [|exact H2]. intros y Hy.
        now apply V_le_lt_trans with (snd best).
    + replace (b1 ++ best :: b2 ++ x :: t)
        with (b1 ++ best :: (b2 ++ [x]) ++ t)
        by (now rewrite <- app_assoc).
      apply IH; [exact H1|].
      apply Forall_app. split; [exact H2|].
      constructor; [|constructor].
      intros H. apply V_ltb_lt in H. congruence.
Qed.

Lemma first_max_spec (t : list (K * V)) (e : K * V) :
  first_max V_ltb t = Some e -> first_with_max V_lt t e.
Proof.
  destruct t as [|x t]; simpl; [discriminate|].
  intros H. inversion H. subst e.
  apply (argmax_from_spec t x [] []); constructor.
Qed.

Lemma first_max_None (t : list (K * V)) :
  first_max V_ltb t = None <-> t = [].
Proof.
  destruct t; simpl; split; congruence.
Qed.
End MaximumFacts.

Lemma first_with_max_In {K V : Type} (V_lt : V -> V -> Prop)
  (t : list (K * V)) (e : K * V) :
  first_with_max V_lt t e -> In e t.
Proof.
  intros (b & a & -> & _). apply in_or_app. right. now left.
Qed.

Lemma first_max_Z {K : Type} (t : list (K * Z)) (e : K * Z) :
  first_max Z.ltb t = Some e -> first_with_max Z.lt t e.
Proof.
  apply first_max_spec.
  - intros a b. apply Z.ltb_lt.
  - intros a b c. lia.
  - intros a b c. lia.
Qed.

Lemma Qltb_lt (a b : Q) : Qltb a b = true <-> (a < b)%Q.
Proof.
  unfold Qltb. rewrite negb_true_iff. split.
  - intros H. apply Qnot_le_lt. intros Hle.
    apply Qle_bool_iff in Hle. congruence.
  - intros H. destruct (Qle_bool b a) eqn:E; [|reflexivity].
    apply Qle_bool_iff in E. exfalso. now apply (Qlt_not_le a b).
Qed.

Lemma first_max_Q {K : Type} (t : list (K * Q)) (e : K * Q) :
  first_max Qltb t = Some e -> first_with_max Qlt t e.
Proof.
  apply first_max_spec.
  - apply Qltb_lt.
  - intros a b c. apply Qlt_trans.
  - intros a b c H1 H2. apply Qle_lt_trans with b; [|exact H2].
    now apply Qnot_lt_le.
Qed.


(** ** Keys *)

Lemma weekday_key_eqb_eq (a b : string * Z) :
  weekday_key_eqb a b = true <-> a = b.
Proof.
  unfold weekday_key_eqb. destruct a as [a1 a2], b as [b1 b2]. simpl.
  rewrite andb_true_iff, String.eqb_eq, Z.eqb_eq.
  split; [intros [-> ->]; reflexivity|intros H; inversion H; auto].
Qed.


Lemma sort_values_Weekdaysort_perm (t : list (string * Z * Z)) :
  Permutation t (sort_values_Weekdaysort t).
Proof. apply sort_by_perm. Qed.

Lemma has_column_In (c : string) (df : DataFrame) :
  has_column c df = true <-> In c (columns df).
Proof.
  unfold has_column. rewrite existsb_exists. split.
  - intros [x [Hin He]]. apply String.eqb_eq in He. now subst x.
  - intros H. exists c. split; [exact H|apply String.eqb_refl].
Qed.

(** ** Missing columns *)

Lemma ingreso_por_dia_unavailable (df : DataFrame) :
  has_column "Weekday" df && has_column "Money" df
    && has_column "Weekdaysort" df = false ->
  prep_ingreso_por_dia df
  = Ok {| sales_by_day_money := None; dia_pico_ingresos := NA |}.
Proof.
  intros H. unfold prep_ingreso_por_dia. now rewrite H.
Qed.

Lemma cafe_estrella_unavailable (df : DataFrame) :
  has_column "Coffee_Name" df = false ->
  prep_cafe_estrella df
  = Ok {| cafe_mas_vendido_ano := NA; ventas_cafe_estrella_mes := None;
          mes_pico_estrella := NA; max_ventas_estrella := 0 |}.
Proof.
  intros H. unfold prep_cafe_estrella. now rewrite H.
Qed.

Lemma ventas_por_hora_unavailable (df : DataFrame) :
  has_column "Hour_of_Day" df = false ->
  prep_ventas_por_hora df
  = Ok {| sales_by_hour := None; peak_hour := NA; sales_at_peak := 0 |}.
Proof.
  intros H. unfold prep_ventas_por_hora. now rewrite H.
Qed.

Lemma porcentajes_cafe_unavailable (df : DataFrame) :
  has_column "Coffee_Name" df = false ->
  prep_porcentajes_cafe df
  = Ok {| porcentajes_cafe := None; top_coffee_name := NA;
          top_coffee_percent := 0%Q |}.
Proof.
  intros H. unfold prep_porcentajes_cafe. now rewrite H.
Qed.

Lemma volumen_por_dia_unavailable (df : DataFrame) :
  has_column "Weekday" df && has_column "Weekdaysort" df = false ->
  prep_volumen_por_dia df
  = Ok {| sales_volume_by_weekday := None; peak_sales_day := NA |}.
Proof.
  intros H. unfold prep_volumen_por_dia. now rewrite H.
Qed.

Lemma volumen_por_mes_unavailable (df : DataFrame) :
  has_column "Month_name" df = false ->
  prep_volumen_por_mes df
  = Ok {| sales_volume_by_month := None; peak_sales_month := NA;
          peak_sales_month_volume := 0 |}.
Proof.
  intros H. unfold prep_volumen_por_mes. now rewrite H.
Qed.

(** The second block only asks for [Coffee_Name]; without [Month_name] it
    never completes. *)
Lemma cafe_estrella_raises_without_Month_name (df : DataFrame) :
  has_column "Coffee_Name" df = true ->
  has_column "Month_name" df = false ->
  exists e, prep_cafe_estrella df = Raise e.
Proof.
  intros Hc Hm. unfold prep_cafe_estrella. rewrite Hc.
  destruct (idxmax Z.ltb _) as [top|e]; simpl; [|now exists e].
  unfold getitem.
  match goal with
  | |- context [has_column "Month_name" ?d] =>
      change (has_column "Month_name" d) with (has_column "Month_name" df)
  end.
  rewrite Hm. now exists (KeyError "Month_name").
Qed.

(** C1. On a table that has [Coffee_Name] but no [Month_name] the monthly
    trend of the best seller is not reported as unavailable: the block raises
    [KeyError] at its [groupby('Month_name')], and so does the conversion of
    line 47, while the other block on [Month_name] is guarded and reports its
    table as unavailable. *)
Theorem C1_trend_raises_without_Month_name :
  prep_cafe_estrella coffee_only = Raise (KeyError "Month_name") /\
  prepare coffee_only = Raise (KeyError "Month_name") /\
  prep_volumen_por_mes coffee_only
  = Ok {| sales_volume_by_month := None; peak_sales_month := NA;
          peak_sales_month_volume := 0 |}.
Proof.
  repeat split; reflexivity.
Qed.

(** ** No rows *)

(** C2. On the table with every column and no row, the revenue block and the
    best-seller block both raise [ValueError] at their unguarded [idxmax], so
    the run ends with that exception;
    the month block completes, with [January] as its peak rather than the
    initial ["N/A"]. *)
Theorem C2_no_rows_raise :
  prep_ingreso_por_dia no_sales = Raise ValueError /\
  prep_cafe_estrella no_sales = Raise ValueError /\
  run no_sales initial_globals = Raise ValueError /\
  prep_volumen_por_mes no_sales
  = Ok {| sales_volume_by_month :=
            Some (map (fun m => (m, 0)) month_order);
          peak_sales_month := Val "January";
          peak_sales_month_volume := 0 |}.
Proof.
  repeat split; reflexivity.
Qed.

(** ** Twelve months *)

Lemma monthly_sales_months (months : list (option string)) :
  map fst (monthly_sales months) = month_order.
Proof.
  unfold monthly_sales, fillna, reindex. rewrite !map_map.
  cbn [fst]. apply map_id.
Qed.

Lemma monthly_sales_length (months : list (option string)) :
  length (monthly_sales months) = 12%nat.
Proof.
  rewrite <- (length_map fst), monthly_sales_months. reflexivity.
Qed.

Lemma sum_for_size (m : string) (months : list (option string)) :
  sum_for String.eqb m (dropna (map (fun k => (k, 1)) months))
  = count_month m months.
Proof.
  unfold sum_for, count_month.
  induction months as [|[s|] months IH]; simpl; [reflexivity| |exact IH].
  destruct (String.eqb s m); [|exact IH].
  cbn [total map fold_right snd length] in *.
  unfold total in IH. rewrite IH. lia.
Qed.

Lemma monthly_sales_entry (months : list (option string)) (m : string) (n : Z) :
  In (m, n) (monthly_sales months) ->
  In m month_order /\ n = count_month m months.
Proof.
  unfold monthly_sales, fillna, reindex. rewrite map_map.
  intros H. apply in_map_iff in H. destruct H as [k [Hk Hin]].
  cbn [fst snd] in Hk. inversion Hk. subst k. split; [exact Hin|].
  unfold groupby_size.
  rewrite (lookup_groupby_sum String.eqb String.eqb_eq).
  rewrite <- sum_for_size.
  destruct (occurs String.eqb m _) eqn:E; [reflexivity|].
  symmetry. now apply (sum_for_absent String.eqb).
Qed.


(** So does the trend of the best seller, whenever the block completes. *)
Lemma cafe_estrella_twelve (df : DataFrame) (b : CafeEstrella) :
  has_column "Coffee_Name" df = true ->
  prep_cafe_estrella df = Ok b ->
  exists top t,
    cafe_mas_vendido_ano b = Val top /\
    ventas_cafe_estrella_mes b = Some t /\
    t = monthly_sales (map Month_name (filter (coffee_is top) (rows df))) /\
    map fst t = month_order.
Proof.
  intros Hc. unfold prep_cafe_estrella. rewrite Hc.
  destruct (idxmax Z.ltb (value_counts String.eqb (map Coffee_Name (rows df))))
    as [top|e]; cbn [bind]; [|discriminate].
  unfold getitem.
  destruct (has_column "Month_name" _); cbn [bind rows]; [|discriminate].
  match goal with
  | |- context [first_max Z.ltb ?t] =>
      destruct (first_max Z.ltb t) as [[mes n]|]
  end; [|discriminate].
  intros H. inversion H. subst b.
  cbn [cafe_mas_vendido_ano ventas_cafe_estrella_mes].
  exists top. eexists. split; [reflexivity|]. split; [reflexivity|].
  split; [reflexivity|]. apply monthly_sales_months.
Qed.

(** C3. On a table that has [Coffee_Name] and [Month_name] and no row, the
    trend block returns no table of twelve zero entries: it raises
    [ValueError] at the [idxmax] of line 75.  The same holds when rows exist
    but every [Coffee_Name] is null. *)
Theorem C3_trend_raises_without_rows :
  prep_cafe_estrella coffee_and_month_no_rows = Raise ValueError /\
  prep_cafe_estrella null_coffee = Raise ValueError.
Proof.
  split; reflexivity.
Qed.

(** ** Peaks *)


(** Read a completed block back: [H] says what the block returned, [Ht]
    names its table. *)
Ltac read_block H Ht :=
  inversion H; subst;
  cbn [sales_by_day_money ventas_cafe_estrella_mes sales_by_hour
       porcentajes_cafe sales_volume_by_weekday sales_volume_by_month] in Ht;
  inversion Ht; subst.

Lemma ingreso_por_dia_table (df : DataFrame) (b : IngresoPorDia)
  (t : list (string * Z * Z)) :
  prep_ingreso_por_dia df = Ok b -> sales_by_day_money b = Some t ->
  t = sort_values_Weekdaysort
        (groupby_sum weekday_key_eqb weekday_key_leb
                     (map (fun r => (weekday_key r, amount r)) (rows df))) /\
  exists e, first_max Z.ltb t = Some e /\
            dia_pico_ingresos b = Val (fst (fst e)).
Proof.
  unfold prep_ingreso_por_dia.
  destruct (has_column "Weekday" df && has_column "Money" df
            && has_column "Weekdaysort" df).
  - unfold idxmax.
    destruct (first_max Z.ltb _) as [e|] eqn:E; cbn [bind]; [|discriminate].
    intros H Ht. read_block H Ht.
    split; [reflexivity|]. exists e. now split.
  - intros H Ht. inversion H. subst. discriminate.
Qed.

Lemma volumen_por_dia_table (df : DataFrame) (b : VolumenPorDia)
  (t : list (string * Z * Z)) :
  prep_volumen_por_dia df = Ok b -> sales_volume_by_weekday b = Some t ->
  t = sort_values_Weekdaysort
        (groupby_size weekday_key_eqb weekday_key_leb
                      (map weekday_key (rows df))) /\
  peak_sales_day b
  = match first_max Z.ltb t with Some e => Val (fst (fst e)) | None => NA end.
Proof.
  unfold prep_volumen_por_dia.
  destruct (has_column "Weekday" df && has_column "Weekdaysort" df).
  - destruct (first_max Z.ltb _) as [[label n]|] eqn:E;
      intros H Ht; read_block H Ht;
      rewrite E; cbn; split; reflexivity.
  - intros H Ht. inversion H. subst. discriminate.
Qed.

Lemma volumen_por_mes_table (df : DataFrame) (b : VolumenPorMes)
  (t : list (string * Z)) :
  prep_volumen_por_mes df = Ok b -> sales_volume_by_month b = Some t ->
  t = monthly_sales (map Month_name (rows df)) /\
  peak_sales_month b
  = match first_max Z.ltb t with Some e => Val (fst e) | None => NA end.
Proof.
  unfold prep_volumen_por_mes.
  destruct (has_column "Month_name" df).
  - destruct (first_max Z.ltb _) as [[mes n]|] eqn:E;
      intros H Ht; read_block H Ht;
      rewrite E; cbn; split; reflexivity.
  - intros H Ht. inversion H. subst. discriminate.
Qed.



Lemma cafe_estrella_table (df : DataFrame) (b : CafeEstrella)
  (t : list (string * Z)) :
  prep_cafe_estrella df = Ok b -> ventas_cafe_estrella_mes b = Some t ->
  exists top e,
    first_max Z.ltb (value_counts String.eqb (map Coffee_Name (rows df)))
    = Some top /\
    cafe_mas_vendido_ano b = Val (fst top) /\
    t = monthly_sales
          (map Month_name (filter (coffee_is (fst top)) (rows df))) /\
    first_max Z.ltb t = Some e /\
    mes_pico_estrella b = Val (fst e).
Proof.
  unfold prep_cafe_estrella.
  destruct (has_column "Coffee_Name" df).
  - unfold idxmax.
    destruct (first_max Z.ltb (value_counts String.eqb _)) as [top|] eqn:Et;
      cbn [bind]; [|discriminate].
    unfold getitem.
    destruct (has_column "Month_name" _); cbn [bind rows]; [|discriminate].
    match goal with
    | |- context [first_max Z.ltb ?x] =>
        destruct (first_max Z.ltb x) as [[mes n]|] eqn:E
    end; [|discriminate].
    intros H Ht. read_block H Ht.
    exists top, (mes, n). repeat split. exact E.
  - intros H Ht. inversion H. subst. discriminate.
Qed.



(** *** The order of the tables *)

Lemma StronglySorted_weaken {A : Type} (R R' : A -> A -> Prop) (l : list A) :
  (forall a b, R a b -> R' a b) -> StronglySorted R l -> StronglySorted R' l.
Proof.
  intros HR. induction 1 as [|a l Hs IH Hf]; constructor; [exact IH|].
  eapply Forall_impl; [|exact Hf]. intros b. apply HR.
Qed.

Lemma StronglySorted_map {A B : Type} (R : A -> A -> Prop)
  (R' : B -> B -> Prop) (f : A -> B) (l : list A) :
  (forall a b, R a b -> R' (f a) (f b)) ->
  StronglySorted R l -> StronglySorted R' (map f l).
Proof.
  intros HR. induction 1 as [|a l Hs IH Hf]; simpl; constructor; [exact IH|].
  apply Forall_map. eapply Forall_impl; [|exact Hf]. intros b. apply HR.
Qed.


Lemma sort_index_ordered (t : list (Z * Z)) :
  StronglySorted by_key (sort_index t).
Proof.
  eapply StronglySorted_weaken.
  - intros a b H. apply Z.leb_le. exact H.
  - apply sort_by_sorted.
    + intros a b. rewrite !Z.leb_le. lia.
    + intros a b c. rewrite !Z.leb_le. lia.
Qed.

Lemma value_counts_ordered {K : Type} (K_eqb : K -> K -> bool)
  (s : list (option K)) :
  StronglySorted by_count_desc (value_counts K_eqb s).
Proof.
  eapply StronglySorted_weaken.
  - intros a b H. apply Z.leb_le. exact H.
  - apply sort_by_sorted.
    + intros a b. rewrite !Z.leb_le. lia.
    + intros a b c. rewrite !Z.leb_le. lia.
Qed.




(** ** The share scenario *)



(** ** Running the script again *)




(** ** Weekday groups *)

Lemma dropna_keys_In {R K : Type} (key : R -> option K) (val : R -> Z)
  (rs : list R) (k : K) :
  In k (map fst (dropna (map (fun r => (key r, val r)) rs))) <->
  exists r, In r rs /\ key r = Some k.
Proof.
  induction rs as [|r rs IH]; simpl.
  - split; [tauto|intros [r [[] _]]].
  - destruct (key r) as [k0|] eqn:E; simpl; rewrite IH; split.
    + intros [H|[r' [Hin Hk]]]; [exists r; subst; auto|exists r'; auto].
    + intros [r' [[H|Hin] Hk]]; [left; congruence|right; exists r'; auto].
    + intros [r' [Hin Hk]]. exists r'. auto.
    + intros [r' [[H|Hin] Hk]]; [congruence|exists r'; auto].
Qed.

(** The two weekday tables have one entry for each pair (name, sort key) that
    occurs in a row with both cells present. *)
Lemma weekday_table_keys (val : Row -> Z) (rs : list Row) (k : string * Z) :
  In k (map fst (sort_values_Weekdaysort
                   (groupby_sum weekday_key_eqb weekday_key_leb
                                (map (fun r => (weekday_key r, val r)) rs)))) <->
  exists r, In r rs /\ weekday_key r = Some k.
Proof.
  rewrite <- dropna_keys_In with (val := val).
  rewrite <- (keys_groupby_sum weekday_key_eqb weekday_key_eqb_eq
                               weekday_key_leb).
  split; apply Permutation_in; [symmetry|];
    apply Permutation_map, sort_values_Weekdaysort_perm.
Qed.

Lemma weekday_table_NoDup (l : list (option (string * Z) * Z)) :
  NoDup (map fst (sort_values_Weekdaysort
                    (groupby_sum weekday_key_eqb weekday_key_leb l))).
Proof.
  eapply Permutation_NoDup.
  - apply Permutation_map, sort_values_Weekdaysort_perm.
  - apply (NoDup_groupby_sum weekday_key_eqb weekday_key_eqb_eq).
Qed.

Lemma weekday_key_Some (r : Row) (w : string) (s : Z) :
  weekday_key r = Some (w, s) <-> Weekday r = Some w /\ Weekdaysort r = Some s.
Proof.
  unfold weekday_key.
  destruct (Weekday r) as [w'|], (Weekdaysort r) as [s'|];
    split; try intros [H1 H2]; try intros H; try discriminate;
    try (inversion H; subst; auto); congruence.
Qed.

Lemma name_once (keys : list (string * Z)) (w : string) (s0 : Z) :
  NoDup keys -> In (w, s0) keys ->
  (forall s, In (w, s) keys -> s = s0) ->
  count_occ string_dec (map fst keys) w = 1%nat.
Proof.
  induction keys as [|[a b] keys IH]; simpl; intros Hnd Hin Hone; [tauto|].
  apply NoDup_cons_iff in Hnd. destruct Hnd as [Hab Hnd].
  destruct (string_dec a w) as [->|Hne].
  - f_equal. apply count_occ_not_In. intros Hw.
    apply in_map_iff in Hw. destruct Hw as [[w' s'] [Hfst Hin']].
    simpl in Hfst. subst w'.
    assert (b = s0) by (apply Hone; now left).
    assert (s' = s0) by (apply Hone; now right).
    subst. contradiction.
  - apply IH; auto.
    destruct Hin as [H|H]; [congruence|exact H].
Qed.

(** The revenue block completes as soon as one row has both weekday cells. *)
Lemma ingreso_por_dia_completes (df : DataFrame) (r : Row) (k : string * Z) :
  has_column "Weekday" df && has_column "Money" df
    && has_column "Weekdaysort" df = true ->
  In r (rows df) -> weekday_key r = Some k ->
  exists b,
    prep_ingreso_por_dia df = Ok b /\
    sales_by_day_money b
    = Some (sort_values_Weekdaysort
              (groupby_sum weekday_key_eqb weekday_key_leb
                           (map (fun r => (weekday_key r, amount r)) (rows df)))).
Proof.
  intros Hg Hin Hk. unfold prep_ingreso_por_dia, idxmax. rewrite Hg.
  destruct (first_max Z.ltb _) as [e|] eqn:E; cbn [bind].
  - eexists. split; reflexivity.
  - exfalso. apply first_max_None in E.
    assert (H : In k (map fst
                  (sort_values_Weekdaysort
                     (groupby_sum weekday_key_eqb weekday_key_leb
                        (map (fun r => (weekday_key r, amount r)) (rows df))))))
      by (apply weekday_table_keys; now exists r).
    rewrite E in H. exact H.
Qed.

Lemma volumen_por_dia_completes (df : DataFrame) :
  has_column "Weekday" df && has_column "Weekdaysort" df = true ->
  exists b,
    prep_volumen_por_dia df = Ok b /\
    sales_volume_by_weekday b
    = Some (sort_values_Weekdaysort
              (groupby_sum weekday_key_eqb weekday_key_leb
                           (map (fun r => (weekday_key r, 1)) (rows df)))).
Proof.
  intros Hg. unfold prep_volumen_por_dia, groupby_size. rewrite Hg, map_map.
  destruct (first_max Z.ltb _) as [[label n]|]; eexists; split; reflexivity.
Qed.

(** C10. Both weekday tables are grouped by the pair (weekday, sort key): no
    pair occurs twice.  When every weekday name goes with one sort key, each
    name of the input occurs exactly once in both tables; a name that goes
    with two different sort keys has an entry for each of them. *)
Theorem C10_weekday_groups (df : DataFrame) :
  has_column "Weekday" df && has_column "Money" df
    && has_column "Weekdaysort" df = true ->
  (forall b t, prep_ingreso_por_dia df = Ok b ->
     sales_by_day_money b = Some t -> NoDup (map fst t)) /\
  (forall b t, prep_volumen_por_dia df = Ok b ->
     sales_volume_by_weekday b = Some t -> NoDup (map fst t)) /\
  (one_sort_key_per_weekday df ->
   forall w, In (Some w) (map Weekday (rows df)) ->
     exists b1 t1 b5 t5,
       prep_ingreso_por_dia df = Ok b1 /\ sales_by_day_money b1 = Some t1 /\
       prep_volumen_por_dia df = Ok b5 /\
       sales_volume_by_weekday b5 = Some t5 /\
       count_occ string_dec (weekday_names t1) w = 1%nat /\
       count_occ string_dec (weekday_names t5) w = 1%nat) /\
  (forall r1 r2 w s1 s2,
     In r1 (rows df) -> In r2 (rows df) ->
     weekday_key r1 = Some (w, s1) -> weekday_key r2 = Some (w, s2) ->
     s1 <> s2 ->
     exists b1 t1 b5 t5,
       prep_ingreso_por_dia df = Ok b1 /\ sales_by_day_money b1 = Some t1 /\
       prep_volumen_por_dia df = Ok b5 /\
       sales_volume_by_weekday b5 = Some t5 /\
       In (w, s1) (map fst t1) /\ In (w, s2) (map fst t1) /\
       In (w, s1) (map fst t5) /\ In (w, s2) (map fst t5)).
Proof.
  intros Hg.
  assert (Hg5 : has_column "Weekday" df && has_column "Weekdaysort" df = true).
  { apply andb_true_iff in Hg. destruct Hg as [Hg Hs].
    apply andb_true_iff in Hg. destruct Hg as [Hw _]. now rewrite Hw, Hs. }
  repeat apply conj.
  - intros b t Hb Ht.
    destruct (ingreso_por_dia_table df b t Hb Ht) as [-> _].
    apply weekday_table_NoDup.
  - intros b t Hb Ht.
    destruct (volumen_por_dia_table df b t Hb Ht) as [-> _].
    apply weekday_table_NoDup.
  - intros Hone w Hw.
    destruct (Hone w Hw) as [s0 Hs0].
    apply in_map_iff in Hw. destruct Hw as [r [Hrw Hr]].
    assert (Hk : weekday_key r = Some (w, s0)).
    { apply weekday_key_Some. split; [exact Hrw|now apply Hs0]. }
    destruct (ingreso_por_dia_completes df r (w, s0) Hg Hr Hk)
      as [b1 [Hb1 Ht1]].
    destruct (volumen_por_dia_completes df Hg5) as [b5 [Hb5 Ht5]].
    exists b1. eexists. exists b5. eexists.
    split; [exact Hb1|]. split; [exact Ht1|].
    split; [exact Hb5|]. split; [exact Ht5|].
    unfold weekday_names.
    split; rewrite <- (map_map fst fst);
      apply name_once with (s0 := s0);
      try apply weekday_table_NoDup;
      try (apply weekday_table_keys; now exists r);
      intros s Hin; apply weekday_table_keys in Hin;
      destruct Hin as [r' [Hr' Hk']]; apply weekday_key_Some in Hk';
      destruct Hk' as [Hw' Hs']; rewrite (Hs0 r' Hr' Hw') in Hs'; congruence.
  - intros r1 r2 w s1 s2 Hr1 Hr2 Hk1 Hk2 Hne.
    destruct (ingreso_por_dia_completes df r1 (w, s1) Hg Hr1 Hk1)
      as [b1 [Hb1 Ht1]].
    destruct (volumen_por_dia_completes df Hg5) as [b5 [Hb5 Ht5]].
    exists b1. eexists. exists b5. eexists.
    split; [exact Hb1|]. split; [exact Ht1|].
    split; [exact Hb5|]. split; [exact Ht5|].
    repeat split; apply weekday_table_keys; eauto.
Qed.

Lemma tied_revenue_one_sort_key : one_sort_key_per_weekday tied_revenue.
Proof.
  intros w Hw. simpl in Hw.
  destruct Hw as [H|[H|[H|[H|[]]]]]; inversion H; subst w;
    [exists 2|exists 1|exists 3|exists 1];
    intros r [<-|[<-|[<-|[<-|[]]]]]; simpl; intros E;
    try reflexivity; discriminate.
Qed.

Lemma C10_weekday_groups_witness :
  (has_column "Weekday" tied_revenue && has_column "Money" tied_revenue
     && has_column "Weekdaysort" tied_revenue = true /\
   one_sort_key_per_weekday tied_revenue /\
   In (Some "Monday") (map Weekday (rows tied_revenue)) /\
   exists b1 t1 b5 t5,
     prep_ingreso_por_dia tied_revenue = Ok b1 /\
     sales_by_day_money b1 = Some t1 /\
     prep_volumen_por_dia tied_revenue = Ok b5 /\
     sales_volume_by_weekday b5 = Some t5 /\
     count_occ string_dec (weekday_names t1) "Monday" = 1%nat /\
     count_occ string_dec (weekday_names t5) "Monday" = 1%nat) /\
  (has_column "Weekday" monday_twice && has_column "Money" monday_twice
     && has_column "Weekdaysort" monday_twice = true /\
   1 <> 8 /\
   exists b1 t1 b5 t5,
     prep_ingreso_por_dia monday_twice = Ok b1 /\
     sales_by_day_money b1 = Some t1 /\
     prep_volumen_por_dia monday_twice = Ok b5 /\
     sales_volume_by_weekday b5 = Some t5 /\
     In ("Monday", 1) (map fst t1) /\ In ("Monday", 8) (map fst t1) /\
     In ("Monday", 1) (map fst t5) /\ In ("Monday", 8) (map fst t5)).
Proof.
  split.
  - assert (Hg : has_column "Weekday" tied_revenue
                 && has_column "Money" tied_revenue
                 && has_column "Weekdaysort" tied_revenue = true)
      by reflexivity.
    assert (Hin : In (Some "Monday") (map Weekday (rows tied_revenue)))
      by (simpl; auto).
    refine (conj Hg (conj tied_revenue_one_sort_key (conj Hin _))).
    destruct (C10_weekday_groups tied_revenue Hg) as (_ & _ & Honce & _).
    exact (Honce tied_revenue_one_sort_key "Monday" Hin).
  - assert (Hg : has_column "Weekday" monday_twice
                 && has_column "Money" monday_twice
                 && has_column "Weekdaysort" monday_twice = true)
      by reflexivity.
    assert (Hne : 1 <> 8) by lia.
    refine (conj Hg (conj Hne _)).
    destruct (C10_weekday_groups monday_twice Hg) as (_ & _ & _ & Htwo).
    apply (Htwo (sale "Monday" 1 9 "March" "Latte" 1000)
                (sale "Monday" 8 10 "March" "Latte" 600) "Monday" 1 8);
      simpl; auto.
Defined.

(** ** Totals of the measure columns *)

Lemma monthly_sales_counts (months : list (option string)) :
  monthly_sales months = map (fun m => (m, count_month m months)) month_order.
Proof.
  unfold monthly_sales, fillna, reindex. rewrite map_map.
  apply map_ext. intros m. cbn [fst snd]. f_equal.
  unfold groupby_size.
  rewrite (lookup_groupby_sum String.eqb String.eqb_eq).
  rewrite <- sum_for_size.
  destruct (occurs String.eqb m _) eqn:E; [reflexivity|].
  symmetry. now apply (sum_for_absent String.eqb).
Qed.












(** ** Months outside the categories *)

Lemma assign_Month_name_map (f : option string -> option string)
  (rs : list Row) :
  assign_Month_name (map f (map Month_name rs)) rs
  = map (fun r => set_Month_name (f (Month_name r)) r) rs.
Proof.
  unfold assign_Month_name.
  induction rs as [|r rs IH]; simpl; [reflexivity|]. now rewrite IH.
Qed.

Lemma prepare_Ok (df_raw : DataFrame) :
  has_column "Month_name" df_raw = true ->
  prepare df_raw
  = Ok ({| columns := columns df_raw; rows := map categorize (rows df_raw) |},
        []).
Proof.
  intros H. unfold prepare, getitem. rewrite H.
  cbn [bind try_except_ValueError].
  now rewrite assign_Month_name_map.
Qed.

Lemma categorize_known (r : Row) :
  categorize r
  = set_Month_name (if month_known r then Month_name r else None) r.
Proof.
  unfold categorize, month_known, Categorical.
  destruct (Month_name r) as [s|]; [|reflexivity].
  destruct (in_categories month_order s); reflexivity.
Qed.


(** In a prepared frame a month is known exactly when it is not null. *)
Lemma month_known_prepared (r : Row) :
  month_known (categorize r) = present (Month_name (categorize r)).
Proof.
  rewrite categorize_known. unfold month_known.
  cbn [set_Month_name Month_name].
  destruct (Month_name r) as [s|] eqn:E; [|reflexivity].
  destruct (in_categories month_order s) eqn:Es; [now rewrite Es|reflexivity].
Qed.





(** ** What one row adds *)


Lemma sum_of_ones {R : Type} (rs : list R) :
  sum_of (fun _ => 1) rs = Z.of_nat (length rs).
Proof. apply sum_ones. Qed.

Section RowFacts.
Context {R K : Type} (K_eqb : K -> K -> bool).
Hypothesis K_eqb_eq : forall a b, K_eqb a b = true <-> a = b.
Context (key : R -> option K) (val : R -> Z).

Lemma sum_for_dropna (k : K) (rs : list R) :
  sum_for K_eqb k (dropna (map (fun x => (key x, val x)) rs))
  = sum_of val (filter (key_is K_eqb key k) rs).
Proof.
  unfold sum_for, sum_of, total, key_is.
  induction rs as [|x rs IH]; simpl; [reflexivity|].
  destruct (key x) as [k'|]; simpl; [|exact IH].
  destruct (K_eqb k' k); simpl; now rewrite IH.
Qed.

(** In any table that holds the groups of [rs], in whatever order, the
    entry of the key of a row [r] of [rs] is the sum over the rows with
    that key. *)
Lemma lookup_grouped (rs : list R) (t : list (K * Z)) (k : K) (r : R) :
  Permutation (aggregate K_eqb (dropna (map (fun x => (key x, val x)) rs))) t ->
  In r rs -> key r = Some k ->
  lookup K_eqb k t = Some (sum_of val (filter (key_is K_eqb key k) rs)).
Proof.
  intros Hp Hin Hk.
  rewrite (lookup_perm K_eqb K_eqb_eq _ k _ t
                       (NoDup_aggregate K_eqb K_eqb_eq _) Hp).
  rewrite (lookup_aggregate K_eqb K_eqb_eq).
  replace (occurs K_eqb k _) with true.
  - now rewrite sum_for_dropna.
  - symmetry. apply (occurs_In K_eqb K_eqb_eq).
    apply dropna_keys_In. now exists r.
Qed.

End RowFacts.









(** * Further properties of the script *)

(** ** When a block completes *)

Lemma some_present_exists {A : Type} (cell : Row -> option A) (rs : list Row) :
  some_present cell rs = true <-> exists r k, In r rs /\ cell r = Some k.
Proof.
  unfold some_present. rewrite existsb_exists. split.
  - intros [r [Hin Hp]]. destruct (cell r) as [k|] eqn:E; [|discriminate].
    now exists r, k.
  - intros [r [k [Hin Hk]]]. exists r. now rewrite Hk.
Qed.

Lemma dropna_absent {A : Type} (cell : Row -> option A) (val : Row -> Z)
  (rs : list Row) :
  some_present cell rs = false ->
  dropna (map (fun r => (cell r, val r)) rs) = [].
Proof.
  unfold some_present. induction rs as [|r rs IH]; [reflexivity|].
  cbn [existsb map dropna]. intros H. apply orb_false_iff in H.
  destruct H as [Hr Hrs]. destruct (cell r); [discriminate|]. now apply IH.
Qed.

Lemma some_present_categorize {A : Type} (cell : Row -> option A)
  (rs : list Row) :
  (forall r, cell (categorize r) = cell r) ->
  some_present cell (map categorize rs) = some_present cell rs.
Proof.
  intros H. unfold some_present. induction rs as [|r rs IH]; [reflexivity|].
  cbn [map existsb]. now rewrite H, IH.
Qed.

Lemma revenue_table_nonempty (df : DataFrame) :
  some_present weekday_key (rows df) = true -> revenue_table df <> [].
Proof.
  intros H E. apply some_present_exists in H. destruct H as [r [k [Hin Hk]]].
  assert (Hk' : In k (map fst (revenue_table df)))
    by (apply weekday_table_keys; now exists r).
  rewrite E in Hk'. exact Hk'.
Qed.

Lemma revenue_table_empty (df : DataFrame) :
  some_present weekday_key (rows df) = false -> revenue_table df = [].
Proof.
  intros H. unfold revenue_table, groupby_sum.
  now rewrite (dropna_absent weekday_key amount).
Qed.

Lemma ranking_nonempty (df : DataFrame) :
  some_present Coffee_Name (rows df) = true -> ranking df <> [].
Proof.
  intros H E. apply some_present_exists in H. destruct H as [r [k [Hin Hk]]].
  assert (Ht : total (ranking df) = 0) by now rewrite E.
  unfold ranking in Ht. rewrite total_value_counts in Ht.
  assert (Hf : In r (filter (fun x => present (Coffee_Name x)) (rows df))).
  { apply filter_In. split; [exact Hin|]. now rewrite Hk. }
  destruct (filter (fun x => present (Coffee_Name x)) (rows df));
    [contradiction|simpl in Ht; lia].
Qed.

Lemma ranking_empty (df : DataFrame) :
  some_present Coffee_Name (rows df) = false -> ranking df = [].
Proof.
  intros H. unfold ranking, value_counts. rewrite map_map.
  now rewrite (dropna_absent Coffee_Name (fun _ => 1)).
Qed.

Lemma value_counts_keys {K : Type} (K_eqb : K -> K -> bool)
  (K_eqb_eq : forall a b, K_eqb a b = true <-> a = b)
  (cell : Row -> option K) (rs : list Row) (k : K) :
  In k (map fst (value_counts K_eqb (map cell rs))) <->
  exists r, In r rs /\ cell r = Some k.
Proof.
  rewrite <- (dropna_keys_In cell (fun _ => 1)).
  transitivity
    (In k (map fst (aggregate K_eqb
                      (dropna (map (fun r => (cell r, 1)) rs)))));
    [|apply (keys_aggregate K_eqb K_eqb_eq)].
  unfold value_counts. rewrite map_map.
  split; apply Permutation_in; [symmetry|];
    apply Permutation_map, sort_by_perm.
Qed.

Lemma first_max_Some {K V : Type} (V_ltb : V -> V -> bool) (t : list (K * V)) :
  t <> [] -> exists e, first_max V_ltb t = Some e.
Proof.
  destruct t as [|e t]; [congruence|]. intros _. now eexists.
Qed.

Lemma monthly_sales_first_max (months : list (option string)) :
  exists mes n,
    first_max Z.ltb (monthly_sales months) = Some (mes, n) /\
    In (mes, n) (monthly_sales months) /\ In mes month_order.
Proof.
  destruct (first_max Z.ltb (monthly_sales months)) as [[mes n]|] eqn:E.
  - exists mes, n. split; [reflexivity|].
    assert (Hin : In (mes, n) (monthly_sales months)).
    { apply (first_with_max_In Z.lt). now apply first_max_Z. }
    split; [exact Hin|]. now apply monthly_sales_entry in Hin.
  - apply first_max_None in E.
    pose proof (monthly_sales_length months) as Hl. rewrite E in Hl.
    discriminate.
Qed.

(** X1. The revenue block has three outcomes.  Without one of its three
    columns it reports the table as unavailable.  With them, it raises
    [ValueError] exactly when no row has both weekday cells; otherwise it
    returns the table, which is not empty, and a peak that is a weekday of
    the table, never ["N/A"]. *)
Theorem X1_ingreso_por_dia_outcome (df : DataFrame) :
  if weekday_money_columns df then
    if some_present weekday_key (rows df) then
      exists w,
        prep_ingreso_por_dia df
        = Ok {| sales_by_day_money := Some (revenue_table df);
                dia_pico_ingresos := Val w |} /\
        revenue_table df <> [] /\
        In w (weekday_names (revenue_table df))
    else prep_ingreso_por_dia df = Raise ValueError
  else prep_ingreso_por_dia df
       = Ok {| sales_by_day_money := None; dia_pico_ingresos := NA |}.
Proof.
  unfold weekday_money_columns, prep_ingreso_por_dia.
  destruct (has_column "Weekday" df && has_column "Money" df
            && has_column "Weekdaysort" df); [|reflexivity].
  fold (revenue_table df).
  destruct (some_present weekday_key (rows df)) eqn:Hp.
  - destruct (first_max_Some Z.ltb (revenue_table df)
                (revenue_table_nonempty df Hp)) as [e He].
    exists (fst (fst e)). unfold idxmax. rewrite He. cbn [bind].
    split; [reflexivity|]. split; [now apply revenue_table_nonempty|].
    unfold weekday_names. apply (in_map (fun x => fst (fst x))).
    apply (first_with_max_In Z.lt). now apply first_max_Z.
  - now rewrite (revenue_table_empty df Hp).
Qed.

(** X2. The best-seller block has four outcomes.  Without [Coffee_Name] it
    reports its results as unavailable.  With it, it raises [ValueError]
    when every coffee name is null; else it raises [KeyError] when
    [Month_name] is missing; else it returns a best seller that occurs in a
    row, its twelve-month table and a peak month that is one of the twelve
    months. *)
Theorem X2_cafe_estrella_outcome (df : DataFrame) :
  if has_column "Coffee_Name" df then
    if some_present Coffee_Name (rows df) then
      if has_column "Month_name" df then
        exists top mes n,
          prep_cafe_estrella df
          = Ok {| cafe_mas_vendido_ano := Val top;
                  ventas_cafe_estrella_mes := Some (trend_table top df);
                  mes_pico_estrella := Val mes;
                  max_ventas_estrella := n |} /\
          (exists r, In r (rows df) /\ Coffee_Name r = Some top) /\
          In (mes, n) (trend_table top df) /\ In mes month_order
      else prep_cafe_estrella df = Raise (KeyError "Month_name")
    else prep_cafe_estrella df = Raise ValueError
  else prep_cafe_estrella df
       = Ok {| cafe_mas_vendido_ano := NA; ventas_cafe_estrella_mes := None;
               mes_pico_estrella := NA; max_ventas_estrella := 0 |}.
Proof.
  unfold prep_cafe_estrella.
  destruct (has_column "Coffee_Name" df); [|reflexivity].
  fold (ranking df).
  destruct (some_present Coffee_Name (rows df)) eqn:Hp.
  - destruct (first_max_Some Z.ltb (ranking df) (ranking_nonempty df Hp))
      as [e He].
    unfold idxmax. rewrite He. cbn [bind]. unfold getitem.
    change (has_column "Month_name"
              {| columns := columns df;
                 rows := filter (coffee_is (fst e)) (rows df) |})
      with (has_column "Month_name" df).
    destruct (has_column "Month_name" df); [|reflexivity].
    cbn [bind rows]. fold (trend_table (fst e) df).
    destruct (monthly_sales_first_max
                (map Month_name (filter (coffee_is (fst e)) (rows df))))
      as (mes & n & Hm & Hin & Hmes).
    fold (trend_table (fst e) df) in Hm, Hin.
    exists (fst e), mes, n. rewrite Hm.
    split; [reflexivity|]. split; [|split; assumption].
    assert (Hk : In (fst e) (map fst (ranking df))).
    { apply in_map. apply (first_with_max_In Z.lt). now apply first_max_Z. }
    now apply (value_counts_keys String.eqb String.eqb_eq) in Hk.
  - now rewrite (ranking_empty df Hp).
Qed.

(** ** When a run completes *)

Lemma ingreso_por_dia_runs (df : DataFrame) :
  if implb (weekday_money_columns df) (some_present weekday_key (rows df))
  then exists b, prep_ingreso_por_dia df = Ok b
  else prep_ingreso_por_dia df = Raise ValueError.
Proof.
  unfold weekday_money_columns, prep_ingreso_por_dia.
  destruct (has_column "Weekday" df && has_column "Money" df
            && has_column "Weekdaysort" df); cbn [implb]; [|now eexists].
  fold (revenue_table df).
  destruct (some_present weekday_key (rows df)) eqn:Hp.
  - destruct (first_max_Some Z.ltb (revenue_table df)
                (revenue_table_nonempty df Hp)) as [e He].
    unfold idxmax. rewrite He. now eexists.
  - now rewrite (revenue_table_empty df Hp).
Qed.

Lemma cafe_estrella_runs (df : DataFrame) :
  has_column "Month_name" df = true ->
  if implb (has_column "Coffee_Name" df) (some_present Coffee_Name (rows df))
  then exists b, prep_cafe_estrella df = Ok b
  else prep_cafe_estrella df = Raise ValueError.
Proof.
  intros Hm. unfold prep_cafe_estrella.
  destruct (has_column "Coffee_Name" df); cbn [implb]; [|now eexists].
  fold (ranking df).
  destruct (some_present Coffee_Name (rows df)) eqn:Hp.
  - destruct (first_max_Some Z.ltb (ranking df) (ranking_nonempty df Hp))
      as [e He].
    unfold idxmax. rewrite He. cbn [bind]. unfold getitem.
    change (has_column "Month_name"
              {| columns := columns df;
                 rows := filter (coffee_is (fst e)) (rows df) |})
      with (has_column "Month_name" df).
    rewrite Hm. cbn [bind rows].
    destruct (monthly_sales_first_max
                (map Month_name (filter (coffee_is (fst e)) (rows df))))
      as (mes & n & Hfm & _).
    rewrite Hfm. now eexists.
  - now rewrite (ranking_empty df Hp).
Qed.

Lemma ventas_por_hora_runs (df : DataFrame) :
  exists b, prep_ventas_por_hora df = Ok b.
Proof.
  unfold prep_ventas_por_hora.
  destruct (has_column "Hour_of_Day" df); [|now eexists].
  destruct (first_max Z.ltb _) as [[h n]|]; now eexists.
Qed.

Lemma porcentajes_cafe_runs (df : DataFrame) :
  exists b, prep_porcentajes_cafe df = Ok b.
Proof.
  unfold prep_porcentajes_cafe.
  destruct (has_column "Coffee_Name" df); [|now eexists].
  destruct (first_max Qltb _) as [[c q]|]; now eexists.
Qed.

Lemma volumen_por_dia_runs (df : DataFrame) :
  exists b, prep_volumen_por_dia df = Ok b.
Proof.
  unfold prep_volumen_por_dia.
  destruct (has_column "Weekday" df && has_column "Weekdaysort" df);
    [|now eexists].
  destruct (first_max Z.ltb _) as [[k n]|]; now eexists.
Qed.

Lemma volumen_por_mes_runs (df : DataFrame) :
  exists b, prep_volumen_por_mes df = Ok b.
Proof.
  unfold prep_volumen_por_mes.
  destruct (has_column "Month_name" df); [|now eexists].
  destruct (first_max Z.ltb _) as [[m n]|]; now eexists.
Qed.

Lemma preparation_runs (df : DataFrame) (g : Globals) :
  has_column "Month_name" df = true ->
  if peaks_exist df then exists g', preparation df g = Ok g'
  else preparation df g = Raise ValueError.
Proof.
  intros Hm. unfold peaks_exist, preparation.
  pose proof (ingreso_por_dia_runs df) as H1.
  pose proof (cafe_estrella_runs df Hm) as H2.
  destruct (implb (weekday_money_columns df) _).
  - destruct H1 as [b1 ->]. cbn [bind andb].
    destruct (implb (has_column "Coffee_Name" df) _).
    + destruct H2 as [b2 ->]. cbn [bind].
      destruct (ventas_por_hora_runs df) as [b3 ->].
      destruct (porcentajes_cafe_runs df) as [b4 ->].
      destruct (volumen_por_dia_runs df) as [b5 ->].
      destruct (volumen_por_mes_runs df) as [b6 ->].
      cbn [bind]. now eexists.
    + now rewrite H2.
  - now rewrite H1.
Qed.

Lemma peaks_exist_prepared (df_raw : DataFrame) :
  peaks_exist {| columns := columns df_raw;
                 rows := map categorize (rows df_raw) |}
  = peaks_exist df_raw.
Proof.
  unfold peaks_exist, weekday_money_columns, has_column. cbn [columns rows].
  now rewrite !some_present_categorize by reflexivity.
Qed.

(** X3. A run ends in one of three ways.  Without a [Month_name] column it
    raises [KeyError] at line 47.  With it, it raises [ValueError] exactly
    when one of the first two blocks meets an empty table: the three weekday
    columns are there and no row has both weekday cells, or [Coffee_Name] is
    there and every coffee name is null.  Otherwise it completes, and shows
    no warning; the other four blocks never raise. *)
Theorem X3_run_outcome (df_raw : DataFrame) (g : Globals) :
  if has_column "Month_name" df_raw then
    if peaks_exist df_raw then exists g', run df_raw g = Ok (g', [])
    else run df_raw g = Raise ValueError
  else run df_raw g = Raise (KeyError "Month_name").
Proof.
  unfold run. destruct (has_column "Month_name" df_raw) eqn:Hm.
  - rewrite (prepare_Ok df_raw Hm). cbn [bind fst snd].
    pose proof (preparation_runs
                  {| columns := columns df_raw;
                     rows := map categorize (rows df_raw) |} g Hm) as H.
    rewrite peaks_exist_prepared in H.
    destruct (peaks_exist df_raw).
    + destruct H as [g' ->]. now exists g'.
    + now rewrite H.
  - unfold prepare, getitem. now rewrite Hm.
Qed.

(** ** What the entries of a table hold *)

(** A table that holds the groups of [rs], in whatever order, has one entry
    for each key that occurs, with the sum over the rows of that key. *)
Lemma grouped_entry {K : Type} (K_eqb : K -> K -> bool)
  (K_eqb_eq : forall a b, K_eqb a b = true <-> a = b)
  (key : Row -> option K) (val : Row -> Z) (rs : list Row)
  (t : list (K * Z)) (k : K) (v : Z) :
  Permutation (aggregate K_eqb (dropna (map (fun x => (key x, val x)) rs))) t ->
  (In (k, v) t <->
   (exists r, In r rs /\ key r = Some k) /\
   v = sum_of val (filter (key_is K_eqb key k) rs)).
Proof.
  intros Hp.
  assert (Hnd : NoDup (map fst t)).
  { eapply Permutation_NoDup; [apply Permutation_map, Hp|].
    apply (NoDup_aggregate K_eqb K_eqb_eq). }
  split.
  - intros Hin.
    assert (Hr : exists r, In r rs /\ key r = Some k).
    { apply (dropna_keys_In key val).
      apply (keys_aggregate K_eqb K_eqb_eq).
      eapply Permutation_in; [apply Permutation_map; symmetry; exact Hp|].
      apply in_map_iff. now exists (k, v). }
    split; [exact Hr|]. destruct Hr as [r [Hr Hk]].
    apply (lookup_In K_eqb K_eqb_eq _ k v t Hnd) in Hin.
    rewrite (lookup_grouped K_eqb K_eqb_eq key val rs t k r Hp Hr Hk) in Hin.
    congruence.
  - intros [[r [Hr Hk]] ->].
    apply (lookup_In K_eqb K_eqb_eq _ k _ t Hnd).
    exact (lookup_grouped K_eqb K_eqb_eq key val rs t k r Hp Hr Hk).
Qed.


Lemma volume_table_perm (df : DataFrame) :
  Permutation
    (aggregate weekday_key_eqb
       (dropna (map (fun r => (weekday_key r, 1)) (rows df))))
    (volume_table df).
Proof.
  unfold volume_table, groupby_size. rewrite map_map.
  etransitivity; [apply groupby_sum_perm|].
  apply sort_values_Weekdaysort_perm.
Qed.

Lemma hour_table_perm (df : DataFrame) :
  Permutation
    (aggregate Z.eqb (dropna (map (fun r => (Hour_of_Day r, 1)) (rows df))))
    (hour_table df).
Proof.
  unfold hour_table, sort_index, value_counts. rewrite map_map.
  etransitivity; apply sort_by_perm.
Qed.

Lemma ranking_perm (df : DataFrame) :
  Permutation
    (aggregate String.eqb
       (dropna (map (fun r => (Coffee_Name r, 1)) (rows df))))
    (ranking df).
Proof.
  unfold ranking, value_counts. rewrite map_map. apply sort_by_perm.
Qed.

Lemma count_where_sum_of (p : Row -> bool) (rs : list Row) :
  sum_of (fun _ => 1) (filter p rs) = count_where p rs.
Proof. apply sum_of_ones. Qed.


(** ** Peaks are maxima over the rows *)

Lemma first_with_max_upper {K : Type} (t : list (K * Z)) (e x : K * Z) :
  first_with_max Z.lt t e -> In x t -> snd x <= snd e.
Proof.
  intros (bf & af & -> & Hb & Ha) Hin.
  rewrite Forall_forall in Hb, Ha.
  apply in_app_or in Hin. destruct Hin as [Hin|[Hin|Hin]].
  - apply Hb in Hin. lia.
  - subst x. lia.
  - apply Ha in Hin. lia.
Qed.

Lemma key_is_true {K : Type} (K_eqb : K -> K -> bool)
  (K_eqb_eq : forall a b, K_eqb a b = true <-> a = b)
  (key : Row -> option K) (k : K) (r : Row) :
  key_is K_eqb key k r = true <-> key r = Some k.
Proof.
  unfold key_is. destruct (key r) as [k'|].
  - rewrite K_eqb_eq. split; congruence.
  - split; discriminate.
Qed.

Lemma count_where_nonneg (p : Row -> bool) (rs : list Row) :
  0 <= count_where p rs.
Proof. unfold count_where. lia. Qed.

Lemma count_where_pos (p : Row -> bool) (rs : list Row) (r : Row) :
  In r rs -> p r = true -> 0 < count_where p rs.
Proof.
  intros Hin Hp. unfold count_where.
  assert (H : In r (filter p rs)) by (apply filter_In; now split).
  destruct (filter p rs); [contradiction|simpl; lia].
Qed.

Lemma count_where_zero (p : Row -> bool) (rs : list Row) :
  existsb p rs = false -> count_where p rs = 0.
Proof.
  unfold count_where. induction rs as [|r rs IH]; [reflexivity|].
  cbn [existsb filter]. intros H. apply orb_false_iff in H.
  destruct H as [-> H]. now apply IH.
Qed.

(** In a table of counts, the first maximum is a key with the most rows. *)
Lemma peak_has_most {K : Type} (K_eqb : K -> K -> bool)
  (K_eqb_eq : forall a b, K_eqb a b = true <-> a = b)
  (key : Row -> option K) (rs : list Row) (t : list (K * Z)) (e : K * Z) :
  Permutation (aggregate K_eqb (dropna (map (fun x => (key x, 1)) rs))) t ->
  first_max Z.ltb t = Some e ->
  (exists r, In r rs /\ key r = Some (fst e)) /\
  snd e = count_where (key_is K_eqb key (fst e)) rs /\
  forall k, count_where (key_is K_eqb key k) rs <= snd e.
Proof.
  intros Hp He. apply first_max_Z in He.
  assert (Hin : In (fst e, snd e) t).
  { rewrite <- surjective_pairing. eapply first_with_max_In. exact He. }
  apply (grouped_entry K_eqb K_eqb_eq key (fun _ => 1) rs t _ _ Hp) in Hin.
  destruct Hin as [Hr Hv]. rewrite count_where_sum_of in Hv.
  split; [exact Hr|]. split; [exact Hv|].
  intros k. destruct (existsb (key_is K_eqb key k) rs) eqn:Ex.
  - apply existsb_exists in Ex. destruct Ex as [r [Hin Hk]].
    apply (key_is_true K_eqb K_eqb_eq) in Hk.
    assert (Hk' : In (k, count_where (key_is K_eqb key k) rs) t).
    { apply (grouped_entry K_eqb K_eqb_eq key (fun _ => 1) rs t _ _ Hp).
      split; [now exists r|]. now rewrite count_where_sum_of. }
    apply (first_with_max_upper t e _ He Hk').
  - rewrite (count_where_zero _ _ Ex), Hv. apply count_where_nonneg.
Qed.

(** X5. The block of the transactions by weekday never raises.  Without its
    two columns it reports the table as unavailable.  With them it returns
    the volume table, and its peak is ["N/A"] exactly when no row has both
    weekday cells; otherwise the peak is the weekday of a pair carried by at
    least as many rows as any other pair. *)
Theorem X5_volumen_por_dia_outcome (df : DataFrame) :
  if weekday_columns df then
    exists p,
      prep_volumen_por_dia df
      = Ok {| sales_volume_by_weekday := Some (volume_table df);
              peak_sales_day := p |} /\
      match p with
      | NA => some_present weekday_key (rows df) = false /\ volume_table df = []
      | Val w =>
          exists s,
            (exists r, In r (rows df) /\ weekday_key r = Some (w, s)) /\
            forall k,
              count_where (key_is weekday_key_eqb weekday_key k) (rows df)
              <= count_where (key_is weekday_key_eqb weekday_key (w, s))
                             (rows df)
      end
  else prep_volumen_por_dia df
       = Ok {| sales_volume_by_weekday := None; peak_sales_day := NA |}.
Proof.
  unfold weekday_columns, prep_volumen_por_dia.
  destruct (has_column "Weekday" df && has_column "Weekdaysort" df);
    [|reflexivity].
  fold (volume_table df).
  destruct (first_max Z.ltb (volume_table df)) as [[[w s] n]|] eqn:E.
  - exists (Val w). split; [reflexivity|]. exists s.
    destruct (peak_has_most weekday_key_eqb weekday_key_eqb_eq weekday_key
                (rows df) _ _ (volume_table_perm df) E) as (Hr & Hv & Hmax).
    cbn [fst snd] in *. split; [exact Hr|]. now rewrite <- Hv.
  - exists NA. split; [reflexivity|]. apply first_max_None in E.
    split; [|exact E].
    destruct (some_present weekday_key (rows df)) eqn:Hp; [|reflexivity].
    apply some_present_exists in Hp. destruct Hp as [r [k [Hin Hk]]].
    assert (Hk' : In k (map fst (volume_table df))).
    { unfold volume_table, groupby_size. rewrite map_map.
      apply weekday_table_keys. now exists r. }
    rewrite E in Hk'. contradiction.
Qed.

(** ** The hour table *)

Lemma StronglySorted_strict (t : list (Z * Z)) :
  StronglySorted by_key t -> NoDup (map fst t) ->
  StronglySorted (fun x y => fst x < fst y) t.
Proof.
  induction 1 as [|a t Hs IH Hf]; intros Hnd; [constructor|].
  cbn [map] in Hnd. apply NoDup_cons_iff in Hnd. destruct Hnd as [Ha Hnd].
  constructor; [now apply IH|].
  rewrite Forall_forall in *. intros b Hb.
  assert (Hle : fst a <= fst b) by (apply Hf; exact Hb).
  assert (Hne : fst a <> fst b).
  { intros E. apply Ha. rewrite E. now apply in_map. }
  lia.
Qed.

Lemma hour_table_NoDup (df : DataFrame) : NoDup (map fst (hour_table df)).
Proof.
  eapply Permutation_NoDup;
    [apply Permutation_map, hour_table_perm|].
  apply (NoDup_aggregate Z.eqb Z.eqb_eq).
Qed.

(** X6. The hour block never raises.  With its column, the hour table has
    one entry for each hour that occurs, in strictly increasing hour, holding
    the number of rows of that hour.  The peak is ["N/A"], with 0 sales, 
    exactly when every hour is null; otherwise the peak hour occurs in a row,
    [sales_at_peak] is the number of its rows, and no hour has more rows. *)
Theorem X6_ventas_por_hora_outcome (df : DataFrame) :
  if has_column "Hour_of_Day" df then
    StronglySorted (fun x y => fst x < fst y) (hour_table df) /\
    (forall h n,
       In (h, n) (hour_table df) <->
       (exists r, In r (rows df) /\ Hour_of_Day r = Some h) /\
       n = count_where (key_is Z.eqb Hour_of_Day h) (rows df)) /\
    exists p n,
      prep_ventas_por_hora df
      = Ok {| sales_by_hour := Some (hour_table df); peak_hour := p;
              sales_at_peak := n |} /\
      match p with
      | NA => some_present Hour_of_Day (rows df) = false /\ n = 0 /\
              hour_table df = []
      | Val h =>
          (exists r, In r (rows df) /\ Hour_of_Day r = Some h) /\
          n = count_where (key_is Z.eqb Hour_of_Day h) (rows df) /\
          forall h', count_where (key_is Z.eqb Hour_of_Day h') (rows df) <= n
      end
  else prep_ventas_por_hora df
       = Ok {| sales_by_hour := None; peak_hour := NA; sales_at_peak := 0 |}.
Proof.
  unfold prep_ventas_por_hora.
  destruct (has_column "Hour_of_Day" df); [|reflexivity].
  fold (hour_table df).
  assert (Hentry : forall h n,
    In (h, n) (hour_table df) <->
    (exists r, In r (rows df) /\ Hour_of_Day r = Some h) /\
    n = count_where (key_is Z.eqb Hour_of_Day h) (rows df)).
  { intros h n.
    rewrite (grouped_entry Z.eqb Z.eqb_eq Hour_of_Day (fun _ => 1) (rows df)
               _ h n (hour_table_perm df)).
    now rewrite count_where_sum_of. }
  split. { apply StronglySorted_strict;
           [apply sort_index_ordered|apply hour_table_NoDup]. }
  split; [exact Hentry|].
  destruct (first_max Z.ltb (hour_table df)) as [[h n]|] eqn:E.
  - exists (Val h), n. split; [reflexivity|].
    destruct (peak_has_most Z.eqb Z.eqb_eq Hour_of_Day (rows df) _ _
                (hour_table_perm df) E) as (Hr & Hv & Hmax).
    cbn [fst snd] in *. auto.
  - exists NA, 0. split; [reflexivity|]. apply first_max_None in E.
    split; [|split; [reflexivity|exact E]].
    destruct (some_present Hour_of_Day (rows df)) eqn:Hp; [|reflexivity].
    apply some_present_exists in Hp. destruct Hp as [r [h [Hin Hh]]].
    assert (Hk : In (h, count_where (key_is Z.eqb Hour_of_Day h) (rows df))
                    (hour_table df))
      by (apply Hentry; split; [now exists r|reflexivity]).
    rewrite E in Hk. contradiction.
Qed.

(** ** The month tables *)

Lemma monthly_sales_peak (months : list (option string)) :
  exists mes n,
    first_max Z.ltb (monthly_sales months) = Some (mes, n) /\
    In mes month_order /\ n = count_month mes months /\
    forall m, In m month_order -> count_month m months <= n.
Proof.
  destruct (monthly_sales_first_max months) as (mes & n & Hfm & Hin & Hmes).
  exists mes, n. split; [exact Hfm|]. split; [exact Hmes|].
  split; [now apply monthly_sales_entry in Hin|].
  intros m Hm.
  assert (Hme : In (m, count_month m months) (monthly_sales months)).
  { rewrite monthly_sales_counts.
    apply (in_map (fun m => (m, count_month m months))). exact Hm. }
  apply first_max_Z in Hfm.
  exact (first_with_max_upper _ _ _ Hfm Hme).
Qed.

Lemma count_month_le_length (m : string) (months : list (option string)) :
  count_month m months <= Z.of_nat (length months).
Proof.
  unfold count_month. apply inj_le. apply filter_length_le.
Qed.

(** X7. The month block never raises.  With its column it returns the twelve
    months in calendar order, each with the number of rows of that month.
    Its peak is never ["N/A"], also on a table without rows: it is one of the
    twelve months, [peak_sales_month_volume] is the number of its rows, and
    none of the twelve months has more. *)
Theorem X7_volumen_por_mes_outcome (df : DataFrame) :
  if has_column "Month_name" df then
    month_table df
    = map (fun m => (m, count_month m (map Month_name (rows df)))) month_order /\
    exists mes n,
      prep_volumen_por_mes df
      = Ok {| sales_volume_by_month := Some (month_table df);
              peak_sales_month := Val mes;
              peak_sales_month_volume := n |} /\
      In mes month_order /\
      n = count_month mes (map Month_name (rows df)) /\
      forall m, In m month_order ->
                count_month m (map Month_name (rows df)) <= n
  else prep_volumen_por_mes df
       = Ok {| sales_volume_by_month := None; peak_sales_month := NA;
               peak_sales_month_volume := 0 |}.
Proof.
  unfold prep_volumen_por_mes.
  destruct (has_column "Month_name" df); [|reflexivity].
  fold (month_table df). split; [apply monthly_sales_counts|].
  destruct (monthly_sales_peak (map Month_name (rows df)))
    as (mes & n & Hfm & Hmes & Hn & Hmax).
  fold (month_table df) in Hfm. rewrite Hfm.
  exists mes, n. auto.
Qed.

(** ** The best seller *)

Lemma argmax_from_sorted_desc {K : Type} (e : K * Z) (t : list (K * Z)) :
  StronglySorted by_count_desc (e :: t) -> argmax_from Z.ltb e t = e.
Proof.
  induction t as [|x t IH]; intros Hs; [reflexivity|].
  apply StronglySorted_inv in Hs. destruct Hs as [Hxt He].
  apply Forall_cons_iff in He. destruct He as [Hx Ht].
  cbn [argmax_from]. unfold by_count_desc in Hx.
  replace (snd e <? snd x) with false by (symmetry; apply Z.ltb_ge; exact Hx).
  apply IH. constructor; [|exact Ht].
  now apply StronglySorted_inv in Hxt.
Qed.

Lemma first_max_ranking (df : DataFrame) (e : string * Z) :
  first_max Z.ltb (ranking df) = Some e ->
  exists rest, ranking df = e :: rest.
Proof.
  pose proof (value_counts_ordered String.eqb (map Coffee_Name (rows df)))
    as Hs.
  fold (ranking df) in Hs.
  destruct (ranking df) as [|x t]; [discriminate|].
  cbn [first_max]. intros H. inversion H as [He].
  rewrite (argmax_from_sorted_desc x t Hs). now exists t.
Qed.

Lemma series_min_spec {K : Type} (t : list (K * Z)) (lo : Z) :
  series_min t = Some lo ->
  (forall x, In x t -> lo <= snd x) /\ exists x, In x t /\ snd x = lo.
Proof.
  destruct t as [|e t]; [discriminate|]. cbn [series_min].
  intros H. inversion H as [Hlo]. clear H.
  assert (G : forall (l : list (K * Z)) (a : Z),
            (fold_left Z.min (map snd l) a <= a /\
             forall x, In x l -> fold_left Z.min (map snd l) a <= snd x) /\
            (fold_left Z.min (map snd l) a = a \/
             exists x, In x l /\ snd x = fold_left Z.min (map snd l) a)).
  { induction l as [|y l IH]; intros a; cbn [map fold_left].
    - split; [split; [lia|intros x []]|now left].
    - destruct (IH (Z.min a (snd y))) as [[H1 H2] H3]. split.
      + split; [lia|]. intros x [<-|Hx]; [lia|now apply H2].
      + destruct H3 as [H3|[x [Hx H3]]].
        * destruct (Z.min_spec a (snd y)) as [[_ Hm]|[_ Hm]].
          -- left. lia.
          -- right. exists y. split; [now left|]. lia.
        * right. exists x. split; [now right|exact H3]. }
  destruct (G t (snd e)) as [[H1 H2] H3]. split.
  - intros x [<-|Hx]; [exact H1|now apply H2].
  - destruct H3 as [H3|[x [Hx H3]]].
    + exists e. split; [now left|now rewrite H3].
    + exists x. split; [now right|exact H3].
Qed.

(** X8. When the best-seller block completes on a table with [Coffee_Name],
    the best seller is the first row of the ranking of [value_counts], it
    occurs in at least one row, and no coffee name has more rows than it. *)
Theorem X8_best_seller_has_most_rows (df : DataFrame) (b : CafeEstrella) :
  has_column "Coffee_Name" df = true ->
  prep_cafe_estrella df = Ok b ->
  exists top n rest,
    cafe_mas_vendido_ano b = Val top /\
    ranking df = (top, n) :: rest /\
    n = count_where (coffee_is top) (rows df) /\
    0 < n /\
    forall c, count_where (coffee_is c) (rows df) <= n.
Proof.
  intros Hc. unfold prep_cafe_estrella. rewrite Hc. fold (ranking df).
  unfold idxmax.
  destruct (first_max Z.ltb (ranking df)) as [[top n]|] eqn:E;
    cbn [bind fst]; [|discriminate].
  unfold getitem.
  destruct (has_column "Month_name" _); cbn [bind rows]; [|discriminate].
  match goal with
  | |- context [first_max Z.ltb ?x] =>
      destruct (first_max Z.ltb x) as [[mes m]|]
  end; [|discriminate].
  intros H. inversion H. subst b. cbn [cafe_mas_vendido_ano].
  destruct (first_max_ranking df _ E) as [rest Hrest].
  destruct (peak_has_most String.eqb String.eqb_eq Coffee_Name (rows df) _ _
              (ranking_perm df) E) as ([r [Hr Hk]] & Hv & Hmax).
  cbn [fst snd] in *.
  exists top, n, rest. split; [reflexivity|]. split; [exact Hrest|].
  split; [exact Hv|]. split; [|exact Hmax].
  rewrite Hv. apply (count_where_pos _ _ r Hr).
  now apply (key_is_true String.eqb String.eqb_eq).
Qed.

Lemma X8_best_seller_has_most_rows_witness :
  has_column "Coffee_Name" three_sales = true /\
  prep_cafe_estrella three_sales
  = Ok {| cafe_mas_vendido_ano := Val "Latte";
          ventas_cafe_estrella_mes := Some (trend_table "Latte" three_sales);
          mes_pico_estrella := Val "March";
          max_ventas_estrella := 2 |} /\
  exists top n rest,
    Val "Latte" = Val top /\
    ranking three_sales = (top, n) :: rest /\
    n = count_where (coffee_is top) (rows three_sales) /\
    0 < n /\
    forall c, count_where (coffee_is c) (rows three_sales) <= n.
Proof.
  assert (H1 : has_column "Coffee_Name" three_sales = true) by reflexivity.
  assert (H2 : prep_cafe_estrella three_sales
               = Ok {| cafe_mas_vendido_ano := Val "Latte";
                       ventas_cafe_estrella_mes :=
                         Some (trend_table "Latte" three_sales);
                       mes_pico_estrella := Val "March";
                       max_ventas_estrella := 2 |}) by reflexivity.
  refine (conj H1 (conj H2 _)).
  exact (X8_best_seller_has_most_rows three_sales _ H1 H2).
Defined.

(** X9. When the best-seller block completes on a table with [Coffee_Name],
    its table lists, for each of the twelve months, the rows of the best
    seller in that month.  The peak month is one of the twelve,
    [max_ventas_estrella] is the number of rows of the best seller in it, no
    month has more, and it is at most the number of rows of the best seller.
    The minimum printed beside it (line 363) is the count of some month and
    no month has less. *)
Theorem X9_trend_of_best_seller (df : DataFrame) (b : CafeEstrella) :
  has_column "Coffee_Name" df = true ->
  prep_cafe_estrella df = Ok b ->
  exists top mes lo,
    cafe_mas_vendido_ano b = Val top /\
    ventas_cafe_estrella_mes b = Some (trend_table top df) /\
    trend_table top df
    = map (fun m => (m, sold_in_month top m df)) month_order /\
    mes_pico_estrella b = Val mes /\ In mes month_order /\
    max_ventas_estrella b = sold_in_month top mes df /\
    (forall m, In m month_order ->
               sold_in_month top m df <= max_ventas_estrella b) /\
    max_ventas_estrella b <= count_where (coffee_is top) (rows df) /\
    min_ventas_estrella b = Some lo /\
    (forall m, In m month_order -> lo <= sold_in_month top m df) /\
    (exists m, In m month_order /\ lo = sold_in_month top m df).
Proof.
  intros Hc. unfold prep_cafe_estrella. rewrite Hc. unfold idxmax.
  destruct (first_max Z.ltb (value_counts String.eqb _)) as [[top n0]|];
    cbn [bind fst]; [|discriminate].
  unfold getitem.
  destruct (has_column "Month_name" _); cbn [bind rows]; [|discriminate].
  fold (trend_table top df).
  destruct (monthly_sales_peak
              (map Month_name (filter (coffee_is top) (rows df))))
    as (mes & n & Hfm & Hmes & Hn & Hmax).
  fold (trend_table top df) in Hfm. fold (sold_in_month top mes df) in Hn.
  rewrite Hfm. intros H. inversion H. subst b.
  unfold min_ventas_estrella.
  cbn [cafe_mas_vendido_ano ventas_cafe_estrella_mes mes_pico_estrella
       max_ventas_estrella].
  assert (Htab : trend_table top df
                 = map (fun m => (m, sold_in_month top m df)) month_order)
    by apply monthly_sales_counts.
  destruct (series_min (trend_table top df)) as [lo|] eqn:Emin.
  2:{ rewrite Htab in Emin. discriminate. }
  destruct (series_min_spec _ _ Emin) as [Hlow [x [Hx Hxlo]]].
  exists top, mes, lo.
  split; [reflexivity|]. split; [reflexivity|]. split; [exact Htab|].
  split; [reflexivity|]. split; [exact Hmes|]. split; [exact Hn|].
  split; [exact Hmax|]. split.
  { rewrite Hn. unfold sold_in_month, count_where.
    etransitivity; [apply count_month_le_length|].
    rewrite length_map. lia. }
  split; [reflexivity|]. split.
  - intros m Hm.
    apply (Hlow (m, sold_in_month top m df)). rewrite Htab.
    now apply (in_map (fun m => (m, sold_in_month top m df))).
  - rewrite Htab in Hx. apply in_map_iff in Hx.
    destruct Hx as [m [Hxm Hm]]. exists m. split; [exact Hm|].
    subst x. cbn [snd] in Hxlo. now symmetry.
Qed.

Lemma X9_trend_of_best_seller_witness :
  has_column "Coffee_Name" three_sales = true /\
  prep_cafe_estrella three_sales
  = Ok {| cafe_mas_vendido_ano := Val "Latte";
          ventas_cafe_estrella_mes := Some (trend_table "Latte" three_sales);
          mes_pico_estrella := Val "March";
          max_ventas_estrella := 2 |} /\
  exists top mes lo,
    Val "Latte" = Val top /\
    Some (trend_table "Latte" three_sales)
    = Some (trend_table top three_sales) /\
    trend_table top three_sales
    = map (fun m => (m, sold_in_month top m three_sales)) month_order /\
    Val "March" = Val mes /\ In mes month_order /\
    2 = sold_in_month top mes three_sales /\
    (forall m, In m month_order -> sold_in_month top m three_sales <= 2) /\
    2 <= count_where (coffee_is top) (rows three_sales) /\
    series_min (trend_table "Latte" three_sales) = Some lo /\
    (forall m, In m month_order -> lo <= sold_in_month top m three_sales) /\
    (exists m, In m month_order /\ lo = sold_in_month top m three_sales).
Proof.
  assert (H1 : has_column "Coffee_Name" three_sales = true) by reflexivity.
  assert (H2 : prep_cafe_estrella three_sales
               = Ok {| cafe_mas_vendido_ano := Val "Latte";
                       ventas_cafe_estrella_mes :=
                         Some (trend_table "Latte" three_sales);
                       mes_pico_estrella := Val "March";
                       max_ventas_estrella := 2 |}) by reflexivity.
  refine (conj H1 (conj H2 _)).
  exact (X9_trend_of_best_seller three_sales _ H1 H2).
Defined.

(** ** The share table *)

Lemma share_table_ranking (df : DataFrame) :
  share_table df
  = map (fun e =>
           (fst e,
            (inject_Z (snd e)
             / inject_Z (count_where (fun r => present (Coffee_Name r))
                                     (rows df))
             * inject_Z 100)%Q))
        (ranking df).
Proof.
  unfold share_table, value_counts_normalize_100, ranking.
  change (fold_right Z.add 0
            (map snd (value_counts String.eqb (map Coffee_Name (rows df)))))
    with (total (value_counts String.eqb (map Coffee_Name (rows df)))).
  now rewrite total_value_counts.
Qed.

Lemma ranking_entry (df : DataFrame) (c : string) (n : Z) :
  In (c, n) (ranking df) <->
  (exists r, In r (rows df) /\ Coffee_Name r = Some c) /\
  n = count_where (coffee_is c) (rows df).
Proof.
  rewrite (grouped_entry String.eqb String.eqb_eq Coffee_Name (fun _ => 1)
             (rows df) _ c n (ranking_perm df)).
  now rewrite count_where_sum_of.
Qed.

Lemma share_table_entry (df : DataFrame) (c : string) (q : Q) :
  In (c, q) (share_table df) <->
  (exists r, In r (rows df) /\ Coffee_Name r = Some c) /\ q = share_of c df.
Proof.
  rewrite share_table_ranking, in_map_iff. split.
  - intros [[c' n] [He Hin]]. cbn [fst snd] in He. inversion He. subst c' q.
    apply ranking_entry in Hin. destruct Hin as [Hr ->]. now split.
  - intros [Hr ->].
    exists (c, count_where (coffee_is c) (rows df)). split; [reflexivity|].
    apply ranking_entry. now split.
Qed.

Lemma count_where_le (p q : Row -> bool) (rs : list Row) :
  (forall r, p r = true -> q r = true) ->
  count_where p rs <= count_where q rs.
Proof.
  intros Hpq. unfold count_where. apply inj_le.
  induction rs as [|r rs IH]; [constructor|].
  cbn [filter]. destruct (p r) eqn:Ep.
  - rewrite (Hpq r Ep). cbn [length]. lia.
  - destruct (q r); cbn [length]; lia.
Qed.

Lemma share_bounds (n T : Z) :
  0 < n -> n <= T ->
  (0 < inject_Z n / inject_Z T * inject_Z 100 /\
   inject_Z n / inject_Z T * inject_Z 100 <= 100)%Q.
Proof.
  intros Hn HT. destruct T as [|p|p]; try lia.
  unfold Qlt, Qle, Qdiv, Qmult, Qinv, inject_Z. simpl. lia.
Qed.

Lemma share_of_bounds (df : DataFrame) (c : string) (r : Row) :
  In r (rows df) -> Coffee_Name r = Some c ->
  (0 < share_of c df /\ share_of c df <= 100)%Q.
Proof.
  intros Hr Hc. unfold share_of. apply share_bounds.
  - apply (count_where_pos _ _ r Hr). unfold coffee_is. rewrite Hc.
    apply String.eqb_refl.
  - apply count_where_le. intros x. unfold coffee_is.
    destruct (Coffee_Name x); [reflexivity|discriminate].
Qed.

Lemma first_with_max_upper_Q {K : Type} (t : list (K * Q)) (e x : K * Q) :
  first_with_max Qlt t e -> In x t -> (snd x <= snd e)%Q.
Proof.
  intros (bf & af & -> & Hb & Ha) Hin.
  rewrite Forall_forall in Hb, Ha.
  apply in_app_or in Hin. destruct Hin as [Hin|[Hin|Hin]].
  - apply Qlt_le_weak. now apply Hb.
  - subst x. apply Qle_refl.
  - apply Qnot_lt_le. now apply Ha.
Qed.

(** X10. The share block never raises.  With [Coffee_Name], the share table
    has one entry for each coffee name that occurs, holding 100 times its
    rows over the rows with a coffee name, a number above 0 and at most 100.
    The leader is ["N/A"], with share 0, exactly when every coffee name is
    null; otherwise it is a coffee of the table, [top_coffee_percent] is its
    share, and no entry of the table has a greater share. *)
Theorem X10_porcentajes_cafe_outcome (df : DataFrame) :
  if has_column "Coffee_Name" df then
    (forall c q,
       In (c, q) (share_table df) <->
       (exists r, In r (rows df) /\ Coffee_Name r = Some c) /\
       q = share_of c df) /\
    (forall c q, In (c, q) (share_table df) -> (0 < q /\ q <= 100)%Q) /\
    exists p top_percent,
      prep_porcentajes_cafe df
      = Ok {| porcentajes_cafe := Some (share_table df);
              top_coffee_name := p; top_coffee_percent := top_percent |} /\
      match p with
      | NA => some_present Coffee_Name (rows df) = false /\
              share_table df = [] /\ top_percent = 0%Q
      | Val c =>
          (exists r, In r (rows df) /\ Coffee_Name r = Some c) /\
          top_percent = share_of c df /\
          forall c' q', In (c', q') (share_table df) -> (q' <= top_percent)%Q
      end
  else prep_porcentajes_cafe df
       = Ok {| porcentajes_cafe := None; top_coffee_name := NA;
               top_coffee_percent := 0%Q |}.
Proof.
  unfold prep_porcentajes_cafe.
  destruct (has_column "Coffee_Name" df); [|reflexivity].
  fold (share_table df).
  split; [apply share_table_entry|]. split.
  { intros c q Hin. apply share_table_entry in Hin.
    destruct Hin as [[r [Hr Hc]] ->]. now apply (share_of_bounds df c r). }
  destruct (first_max Qltb (share_table df)) as [[c q]|] eqn:E.
  - exists (Val c), q. split; [reflexivity|].
    apply first_max_Q in E.
    assert (Hin : In (c, q) (share_table df))
      by (eapply first_with_max_In; exact E).
    apply share_table_entry in Hin. destruct Hin as [Hr Hq].
    split; [exact Hr|]. split; [exact Hq|].
    intros c' q' Hin'.
    exact (first_with_max_upper_Q _ _ _ E Hin').
  - exists NA, 0%Q. split; [reflexivity|]. apply first_max_None in E.
    split; [|split; [exact E|reflexivity]].
    destruct (some_present Coffee_Name (rows df)) eqn:Hp; [|reflexivity].
    apply some_present_exists in Hp. destruct Hp as [r [c [Hr Hc]]].
    assert (Hin : In (c, share_of c df) (share_table df))
      by (apply share_table_entry; split; [now exists r|reflexivity]).
    rewrite E in Hin. contradiction.
Qed.

(** ** The share leader and the best seller *)

Lemma argmax_from_map {K V W : Type} (V_ltb : V -> V -> bool)
  (W_ltb : W -> W -> bool) (f : V -> W) (t : list (K * V)) :
  (forall a b, W_ltb (f a) (f b) = V_ltb a b) ->
  forall e,
    argmax_from W_ltb (fst e, f (snd e))
                (map (fun x => (fst x, f (snd x))) t)
    = (fst (argmax_from V_ltb e t), f (snd (argmax_from V_ltb e t))).
Proof.
  intros Hf. induction t as [|x t IH]; intros e; [reflexivity|].
  cbn [map argmax_from snd]. rewrite Hf.
  destruct (V_ltb (snd e) (snd x)); apply IH.
Qed.

Lemma scaled_ltb (T a b : Z) :
  0 < T ->
  Qltb (inject_Z a / inject_Z T * inject_Z 100)
       (inject_Z b / inject_Z T * inject_Z 100)
  = (a <? b).
Proof.
  intros HT.
  assert (HinvT : (0 < / inject_Z T)%Q).
  { apply Qinv_lt_0_compat. change 0%Q with (inject_Z 0).
    rewrite <- Zlt_Qlt. exact HT. }
  assert (H100 : (0 < inject_Z 100)%Q) by reflexivity.
  apply eq_true_iff_eq. rewrite Qltb_lt, Z.ltb_lt. unfold Qdiv.
  rewrite (Qmult_lt_r _ _ _ H100), (Qmult_lt_r _ _ _ HinvT).
  rewrite <- Zlt_Qlt. reflexivity.
Qed.

(** X11. When both blocks on [Coffee_Name] complete, the leader of the share
    table is the best seller of line 75; it is the first row of the share
    table, and [top_coffee_percent] is its share. *)
Theorem X11_share_leader_is_best_seller (df : DataFrame)
  (b2 : CafeEstrella) (b4 : PorcentajesCafe) :
  has_column "Coffee_Name" df = true ->
  prep_cafe_estrella df = Ok b2 ->
  prep_porcentajes_cafe df = Ok b4 ->
  exists top rest,
    cafe_mas_vendido_ano b2 = Val top /\
    top_coffee_name b4 = Val top /\
    top_coffee_percent b4 = share_of top df /\
    porcentajes_cafe b4 = Some ((top, share_of top df) :: rest).
Proof.
  intros Hc. unfold prep_cafe_estrella, prep_porcentajes_cafe. rewrite Hc.
  fold (ranking df). fold (share_table df). unfold idxmax.
  destruct (first_max Z.ltb (ranking df)) as [[top n]|] eqn:E;
    cbn [bind fst]; [|discriminate].
  unfold getitem.
  destruct (has_column "Month_name" _); cbn [bind rows]; [|discriminate].
  match goal with
  | |- context [first_max Z.ltb ?x] =>
      destruct (first_max Z.ltb x) as [[mes m]|]
  end; [|discriminate].
  intros H2. inversion H2. subst b2. clear H2.
  destruct (first_max_ranking df _ E) as [rest Hrest].
  destruct (peak_has_most String.eqb String.eqb_eq Coffee_Name (rows df) _ _
              (ranking_perm df) E) as ([r [Hr Hk]] & Hv & _).
  cbn [fst snd] in Hk, Hv.
  change (count_where (key_is String.eqb Coffee_Name top) (rows df))
    with (count_where (coffee_is top) (rows df)) in Hv.
  assert (HT : 0 < count_where (fun x => present (Coffee_Name x)) (rows df)).
  { apply (count_where_pos _ _ r Hr). now rewrite Hk. }
  assert (Hshare : share_table df
                   = (top, share_of top df)
                       :: map (fun e =>
                                 (fst e,
                                  (inject_Z (snd e)
                                   / inject_Z (count_where
                                                 (fun r => present (Coffee_Name r))
                                                 (rows df))
                                   * inject_Z 100)%Q)) rest).
  { rewrite share_table_ranking, Hrest. cbn [map fst snd].
    unfold share_of. now rewrite <- Hv. }
  assert (Hfm : first_max Qltb (share_table df) = Some (top, share_of top df)).
  { rewrite Hshare. cbn [first_max]. f_equal.
    assert (Harg : argmax_from Z.ltb (top, n) rest = (top, n)).
    { rewrite Hrest in E. cbn [first_max] in E. congruence. }
    pose proof (argmax_from_map (K := string) Z.ltb Qltb
                  (fun v => (inject_Z v
                             / inject_Z (count_where
                                           (fun r => present (Coffee_Name r))
                                           (rows df))
                             * inject_Z 100)%Q)
                  rest (fun a b => scaled_ltb _ a b HT) (top, n)) as Hmap.
    cbn [fst snd] in Hmap. rewrite Harg in Hmap. cbn [fst snd] in Hmap.
    unfold share_of. rewrite <- Hv. exact Hmap. }
  rewrite Hfm. intros H4. inversion H4. subst b4.
  cbn [cafe_mas_vendido_ano top_coffee_name top_coffee_percent
       porcentajes_cafe].
  exists top. eexists. split; [reflexivity|]. split; [reflexivity|].
  split; [reflexivity|]. now rewrite Hshare.
Qed.

Lemma X11_share_leader_is_best_seller_witness :
  has_column "Coffee_Name" three_sales = true /\
  prep_cafe_estrella three_sales
  = Ok {| cafe_mas_vendido_ano := Val "Latte";
          ventas_cafe_estrella_mes := Some (trend_table "Latte" three_sales);
          mes_pico_estrella := Val "March";
          max_ventas_estrella := 2 |} /\
  prep_porcentajes_cafe three_sales
  = Ok {| porcentajes_cafe := Some (share_table three_sales);
          top_coffee_name := Val "Latte";
          top_coffee_percent := (200 # 3)%Q |} /\
  exists top rest,
    Val "Latte" = Val top /\
    Val "Latte" = Val top /\
    (200 # 3)%Q = share_of top three_sales /\
    Some (share_table three_sales)
    = Some ((top, share_of top three_sales) :: rest).
Proof.
  assert (H1 : has_column "Coffee_Name" three_sales = true) by reflexivity.
  assert (H2 : prep_cafe_estrella three_sales
               = Ok {| cafe_mas_vendido_ano := Val "Latte";
                       ventas_cafe_estrella_mes :=
                         Some (trend_table "Latte" three_sales);
                       mes_pico_estrella := Val "March";
                       max_ventas_estrella := 2 |}) by reflexivity.
  assert (H3 : prep_porcentajes_cafe three_sales
               = Ok {| porcentajes_cafe := Some (share_table three_sales);
                       top_coffee_name := Val "Latte";
                       top_coffee_percent := (200 # 3)%Q |}) by reflexivity.
  refine (conj H1 (conj H2 (conj H3 _))).
  exact (X11_share_leader_is_best_seller three_sales _ _ H1 H2 H3).
Defined.

(** ** The conversion of line 47 *)

Lemma categorize_idempotent (r : Row) : categorize (categorize r) = categorize r.
Proof.
  unfold categorize, Categorical. cbn [set_Month_name Month_name
    Weekday Weekdaysort Hour_of_Day Coffee_Name Money].
  destruct (Month_name r) as [s|]; [|reflexivity].
  destruct (in_categories month_order s) eqn:E; [now rewrite E|reflexivity].
Qed.

Lemma categorize_fixed (r : Row) :
  Month_name r = None \/ month_known r = true -> categorize r = r.
Proof.
  intros H. rewrite categorize_known. destruct r as [w s h m c a].
  unfold month_known in *. cbn [Month_name set_Month_name Weekday Weekdaysort
    Hour_of_Day Coffee_Name Money] in *.
  destruct H as [->|H]; [reflexivity|].
  destruct m as [m|]; [now rewrite H|reflexivity].
Qed.

(** X12. The conversion of line 47 ends in one of two ways: without a
    [Month_name] column it raises [KeyError], which [except ValueError] does
    not catch; with the column it succeeds and the warning of line 49 is not
    shown, whatever the months are.  In the result every month is null or one
    of the twelve categories. *)
Theorem X12_prepare_outcome (df_raw : DataFrame) :
  if has_column "Month_name" df_raw then
    exists df,
      prepare df_raw = Ok (df, []) /\
      columns df = columns df_raw /\
      rows df = map categorize (rows df_raw) /\
      forall r, In r (rows df) ->
                month_known r = present (Month_name r)
  else prepare df_raw = Raise (KeyError "Month_name").
Proof.
  destruct (has_column "Month_name" df_raw) eqn:Hm.
  - eexists. split; [now apply prepare_Ok|]. split; [reflexivity|].
    split; [reflexivity|]. cbn [rows]. intros r Hr.
    apply in_map_iff in Hr. destruct Hr as [r0 [<- _]].
    apply month_known_prepared.
  - unfold prepare, getitem. now rewrite Hm.
Qed.

(** X13. Converting twice is converting once: on the table the conversion
    returns, the conversion changes nothing.  A table whose months are all
    null or among the twelve categories is returned as it is. *)
Theorem X13_prepare_idempotent (df_raw df : DataFrame) (w : list string) :
  prepare df_raw = Ok (df, w) ->
  prepare df = Ok (df, []) /\
  ((forall r, In r (rows df_raw) ->
              Month_name r = None \/ month_known r = true) ->
   df = df_raw).
Proof.
  intros H.
  assert (Hm : has_column "Month_name" df_raw = true).
  { destruct (has_column "Month_name" df_raw) eqn:E; [reflexivity|].
    unfold prepare, getitem in H. rewrite E in H. discriminate. }
  rewrite (prepare_Ok df_raw Hm) in H. inversion H. subst df w. clear H.
  split.
  - rewrite prepare_Ok by exact Hm. cbn [columns rows].
    rewrite map_map. do 3 f_equal. apply map_ext. apply categorize_idempotent.
  - intros Hall. destruct df_raw as [cols rs]. cbn [columns rows] in *.
    f_equal. rewrite <- (map_id rs) at 2. apply map_ext_in.
    intros r Hr. apply categorize_fixed. now apply Hall.
Qed.

Lemma X13_prepare_idempotent_witness :
  prepare three_sales = Ok (three_sales, []) /\
  prepare three_sales = Ok (three_sales, []) /\
  ((forall r, In r (rows three_sales) ->
              Month_name r = None \/ month_known r = true) ->
   three_sales = three_sales).
Proof.
  assert (H : prepare three_sales = Ok (three_sales, [])) by reflexivity.
  exact (conj H (X13_prepare_idempotent three_sales three_sales [] H)).
Defined.

(** X14. The conversion leaves the four blocks that do not read
    [Month_name] as they are: on the converted table the revenue, hour, share
    and weekday-volume blocks give what they give on the loaded table. *)
Theorem X14_prepare_keeps_other_blocks (df_raw df : DataFrame)
  (w : list string) :
  prepare df_raw = Ok (df, w) ->
  prep_ingreso_por_dia df = prep_ingreso_por_dia df_raw /\
  prep_ventas_por_hora df = prep_ventas_por_hora df_raw /\
  prep_porcentajes_cafe df = prep_porcentajes_cafe df_raw /\
  prep_volumen_por_dia df = prep_volumen_por_dia df_raw.
Proof.
  intros H.
  assert (Hm : has_column "Month_name" df_raw = true).
  { destruct (has_column "Month_name" df_raw) eqn:E; [reflexivity|].
    unfold prepare, getitem in H. rewrite E in H. discriminate. }
  rewrite (prepare_Ok df_raw Hm) in H. inversion H. subst df w. clear H.
  unfold prep_ingreso_por_dia, prep_ventas_por_hora, prep_porcentajes_cafe,
    prep_volumen_por_dia, has_column.
  cbn [columns rows]. rewrite !map_map.
  repeat split; reflexivity.
Qed.

Lemma X14_prepare_keeps_other_blocks_witness :
  prepare unknown_month = Ok (null_month, []) /\
  prep_ingreso_por_dia null_month = prep_ingreso_por_dia unknown_month /\
  prep_ventas_por_hora null_month = prep_ventas_por_hora unknown_month /\
  prep_porcentajes_cafe null_month = prep_porcentajes_cafe unknown_month /\
  prep_volumen_por_dia null_month = prep_volumen_por_dia unknown_month.
Proof.
  assert (H : prepare unknown_month = Ok (null_month, [])) by reflexivity.
  exact (conj H (X14_prepare_keeps_other_blocks unknown_month null_month [] H)).
Defined.

(** ** The page of a completed run *)









(** ** The value printed with a peak *)





(** ** The order of the weekdays *)

Lemma keys_accumulate_add {K : Type} (K_eqb : K -> K -> bool) (k : K) (v : Z)
  (t : list (K * Z)) :
  map fst (accumulate K_eqb k v t) = add_key K_eqb k (map fst t).
Proof.
  induction t as [|[k' v'] t IH]; [reflexivity|].
  cbn [accumulate map fst add_key].
  destruct (K_eqb k' k); [reflexivity|]. cbn [map fst]. now rewrite IH.
Qed.

Lemma keys_aggregate_fold {K : Type} (K_eqb : K -> K -> bool)
  (kvs : list (K * Z)) :
  map fst (aggregate K_eqb kvs)
  = fold_left (fun ks k => add_key K_eqb k ks) (map fst kvs) [].
Proof.
  unfold aggregate.
  change (@nil K) with (map fst (@nil (K * Z))).
  generalize (@nil (K * Z)).
  induction kvs as [|kv kvs IH]; intros t0; [reflexivity|].
  cbn [fold_left map]. rewrite IH. now rewrite keys_accumulate_add.
Qed.

Lemma keys_dropna {K : Type} (key : Row -> option K) (val val' : Row -> Z)
  (rs : list Row) :
  map fst (dropna (map (fun r => (key r, val r)) rs))
  = map fst (dropna (map (fun r => (key r, val' r)) rs)).
Proof.
  induction rs as [|r rs IH]; [reflexivity|].
  cbn [map dropna]. destruct (key r); [|exact IH].
  cbn [map fst]. now rewrite IH.
Qed.

Lemma keys_sort_by {K : Type} (K_leb : K -> K -> bool) (t : list (K * Z)) :
  map fst (sort_by (fun a b => K_leb (fst a) (fst b)) t)
  = sort_by K_leb (map fst t).
Proof.
  induction t as [|x t IH]; [reflexivity|].
  cbn [sort_by fold_right map]. fold (sort_by (fun a b => K_leb (fst a) (fst b)) t).
  fold (sort_by K_leb (map fst t)). rewrite <- IH.
  generalize (sort_by (fun a b => K_leb (fst a) (fst b)) t). intros l.
  induction l as [|y l IHl]; [reflexivity|].
  cbn [insert_sorted map]. destruct (K_leb (fst x) (fst y)); [reflexivity|].
  cbn [map]. now rewrite IHl.
Qed.

(** X17. The revenue table and the volume table list the same pairs
    (weekday, sort key) in the same order: the slices of the pie of section
    A and the bars of section E come in one order. *)
Theorem X17_weekday_tables_same_order (df : DataFrame) :
  map fst (revenue_table df) = map fst (volume_table df).
Proof.
  unfold revenue_table, volume_table, groupby_size, groupby_sum,
    sort_values_Weekdaysort.
  rewrite map_map.
  rewrite !(keys_sort_by (fun a b => snd a <=? snd b)).
  rewrite !(keys_sort_by weekday_key_leb).
  rewrite !keys_aggregate_fold.
  now rewrite (keys_dropna weekday_key amount (fun _ => 1)).
Qed.

(** ** The bars of the hour chart *)

Lemma unique_In (l : list Z) (x : Z) : In x (unique Z.eqb l) <-> In x l.
Proof.
  induction l as [|y l IH]; [reflexivity|].
  cbn [unique In]. rewrite filter_In, IH, negb_true_iff, Z.eqb_neq.
  destruct (Z.eq_dec y x); intuition congruence.
Qed.

Lemma unique_NoDup (l : list Z) : NoDup (unique Z.eqb l).
Proof.
  induction l as [|y l IH]; [constructor|].
  cbn [unique]. constructor.
  - rewrite filter_In, negb_true_iff, Z.eqb_neq. intros [_ H]. congruence.
  - now apply NoDup_filter.
Qed.

Lemma sorted_increasing (l : list Z) : StronglySorted Z.le (sorted l).
Proof.
  eapply StronglySorted_weaken; [|apply (sort_by_sorted Z.leb)].
  - intros a b H. now apply Z.leb_le.
  - intros a b. rewrite !Z.leb_le. lia.
  - intros a b c. rewrite !Z.leb_le. lia.
Qed.

(** Two increasing lists without repetition that hold the same numbers are
    equal. *)
Lemma increasing_NoDup_eq (l1 : list Z) :
  forall l2,
    StronglySorted Z.le l1 -> StronglySorted Z.le l2 ->
    NoDup l1 -> NoDup l2 -> (forall x, In x l1 <-> In x l2) -> l1 = l2.
Proof.
  induction l1 as [|a l1 IH]; intros l2 Hs1 Hs2 Hn1 Hn2 Hin.
  - destruct l2 as [|b l2]; [reflexivity|].
    exfalso. apply (Hin b). now left.
  - destruct l2 as [|b l2]; [exfalso; apply (Hin a); now left|].
    apply StronglySorted_inv in Hs1. destruct Hs1 as [Hs1 Ha].
    apply StronglySorted_inv in Hs2. destruct Hs2 as [Hs2 Hb].
    apply NoDup_cons_iff in Hn1. destruct Hn1 as [Ha1 Hn1].
    apply NoDup_cons_iff in Hn2. destruct Hn2 as [Hb2 Hn2].
    rewrite Forall_forall in Ha, Hb.
    assert (Hab : a = b).
    { assert (H1 : In a (b :: l2)) by (apply Hin; now left).
      assert (H2 : In b (a :: l1)) by (apply Hin; now left).
      destruct H1 as [H1|H1]; [congruence|].
      destruct H2 as [H2|H2]; [congruence|].
      apply Hb in H1. apply Ha in H2. lia. }
    subst b. f_equal. apply IH; auto.
    intros x. split; intros Hx.
    + assert (H : In x (a :: l2)) by (apply Hin; now right).
      destruct H as [H|H]; [congruence|exact H].
    + assert (H : In x (a :: l1)) by (apply Hin; now right).
      destruct H as [H|H]; [congruence|exact H].
Qed.

(** X18. When no hour is null, the order that line 298 gives to the bars of
    the hour chart, [sorted(df['Hour_of_Day'].unique())], is the index of the
    hour table of line 98: the chart and the table under it list the same
    hours in the same order. *)
Theorem X18_hour_chart_order (df : DataFrame) (hours : list Z) :
  map Hour_of_Day (rows df) = map Some hours ->
  map fst (hour_table df) = sorted (unique Z.eqb hours).
Proof.
  intros Hh. apply increasing_NoDup_eq.
  - apply StronglySorted_map with (R := by_key); [|apply sort_index_ordered].
    intros a b H. exact H.
  - apply sorted_increasing.
  - apply hour_table_NoDup.
  - eapply Permutation_NoDup; [apply sort_by_perm|apply unique_NoDup].
  - intros h.
    transitivity (exists r, In r (rows df) /\ Hour_of_Day r = Some h).
    + unfold hour_table, sort_index.
      rewrite <- (value_counts_keys Z.eqb Z.eqb_eq Hour_of_Day (rows df) h).
      split; apply Permutation_in; [symmetry|];
        apply Permutation_map, sort_by_perm.
    + unfold sorted. rewrite sort_by_In, unique_In.
      transitivity (In (Some h) (map Hour_of_Day (rows df))).
      * rewrite in_map_iff. split; intros [r [H1 H2]]; exists r; auto.
      * rewrite Hh, in_map_iff. split.
        -- intros [x [Hx Hin]]. congruence.
        -- intros Hin. now exists h.
Qed.

Lemma X18_hour_chart_order_witness :
  map Hour_of_Day (rows three_sales) = map Some [9; 10; 9] /\
  map fst (hour_table three_sales) = sorted (unique Z.eqb [9; 10; 9]).
Proof.
  assert (H : map Hour_of_Day (rows three_sales) = map Some [9; 10; 9])
    by reflexivity.
  exact (conj H (X18_hour_chart_order three_sales [9; 10; 9] H)).
Defined.

(** ** The trend against the month table *)

Lemma count_month_filter_le (m : string) (p : Row -> bool) (rs : list Row) :
  count_month m (map Month_name (filter p rs))
  <= count_month m (map Month_name rs).
Proof.
  unfold count_month. apply inj_le.
  induction rs as [|r rs IH]; [constructor|].
  cbn [filter map]. destruct (p r); cbn [map filter];
    destruct (Month_name r) as [s|]; try destruct (String.eqb s m);
    cbn [length]; lia.
Qed.

Lemma cafe_estrella_max (df : DataFrame) (b : CafeEstrella)
  (t : list (string * Z)) :
  prep_cafe_estrella df = Ok b -> ventas_cafe_estrella_mes b = Some t ->
  exists e, first_max Z.ltb t = Some e /\ max_ventas_estrella b = snd e.
Proof.
  unfold prep_cafe_estrella.
  destruct (has_column "Coffee_Name" df).
  - destruct (idxmax Z.ltb _) as [top|]; cbn [bind]; [|discriminate].
    destruct (getitem "Month_name" Month_name _) as [months|];
      cbn [bind]; [|discriminate].
    destruct (first_max Z.ltb (monthly_sales months)) as [[mes n]|] eqn:E;
      [|discriminate].
    intros H Ht. read_block H Ht. exists (mes, n). now split.
  - intros H Ht. inversion H. subst. discriminate.
Qed.

Lemma volumen_por_mes_max (df : DataFrame) (b : VolumenPorMes)
  (t : list (string * Z)) :
  prep_volumen_por_mes df = Ok b -> sales_volume_by_month b = Some t ->
  (exists e, first_max Z.ltb t = Some e /\
             peak_sales_month_volume b = snd e) \/ t = [].
Proof.
  unfold prep_volumen_por_mes.
  destruct (has_column "Month_name" df).
  - destruct (first_max Z.ltb _) as [[mes n]|] eqn:E;
      intros H Ht; read_block H Ht.
    + left. exists (mes, n). now split.
    + right. now apply first_max_None in E.
  - intros H Ht. inversion H. subst. discriminate.
Qed.

(** X19. When the best-seller block and the month block both return their
    tables, each month of the trend holds at most what the
    month table holds for that month, and the peak of the trend is at most
    the peak of the month table: the best seller never sells more in a month
    than all coffees together. *)
Theorem X19_trend_below_month_table (df : DataFrame) (b2 : CafeEstrella)
  (b6 : VolumenPorMes) (t2 t6 : list (string * Z)) :
  prep_cafe_estrella df = Ok b2 ->
  prep_volumen_por_mes df = Ok b6 ->
  ventas_cafe_estrella_mes b2 = Some t2 ->
  sales_volume_by_month b6 = Some t6 ->
  map fst t2 = map fst t6 /\
  (forall m n n', In (m, n) t2 -> In (m, n') t6 -> n <= n') /\
  max_ventas_estrella b2 <= peak_sales_month_volume b6.
Proof.
  intros H2 H6 Ht2 Ht6.
  destruct (cafe_estrella_table df b2 t2 H2 Ht2)
    as (top & e & _ & _ & Heq2 & He & _).
  destruct (volumen_por_mes_table df b6 t6 H6 Ht6) as [Heq6 _].
  assert (Hle : forall m n n', In (m, n) t2 -> In (m, n') t6 -> n <= n').
  { intros m n n' Hn Hn'. rewrite Heq2 in Hn. rewrite Heq6 in Hn'.
    apply monthly_sales_entry in Hn. apply monthly_sales_entry in Hn'.
    destruct Hn as [_ ->]. destruct Hn' as [_ ->].
    apply count_month_filter_le. }
  split; [rewrite Heq2, Heq6; now rewrite !monthly_sales_months|].
  split; [exact Hle|].
  destruct (cafe_estrella_max df b2 t2 H2 Ht2) as [e2 [He2 Hmax2]].
  assert (e2 = e) by congruence. subst e2.
  destruct (volumen_por_mes_max df b6 t6 H6 Ht6) as [Hmax6|Hmax6].
  2:{ rewrite Heq6 in Hmax6.
      pose proof (monthly_sales_length (map Month_name (rows df))) as Hl.
      rewrite Hmax6 in Hl. discriminate. }
  destruct Hmax6 as [e6 [He6 Hv6]]. rewrite Hmax2, Hv6.
  apply first_max_Z in He. apply first_max_Z in He6.
  assert (Hin2 : In (fst e, snd e) t2)
    by (rewrite <- surjective_pairing; eapply first_with_max_In; exact He).
  assert (Hk : In (fst e) (map fst t6)).
  { rewrite Heq6, monthly_sales_months, <- (monthly_sales_months
      (map Month_name (filter (coffee_is (fst top)) (rows df)))), <- Heq2.
    apply (in_map fst) in Hin2. exact Hin2. }
  apply in_map_iff in Hk. destruct Hk as [[m n'] [Hm Hin6]].
  cbn [fst] in Hm. subst m.
  transitivity n'; [exact (Hle _ _ _ Hin2 Hin6)|].
  exact (first_with_max_upper t6 e6 _ He6 Hin6).
Qed.

Lemma X19_trend_below_month_table_witness :
  prep_cafe_estrella three_sales
  = Ok {| cafe_mas_vendido_ano := Val "Latte";
          ventas_cafe_estrella_mes := Some (trend_table "Latte" three_sales);
          mes_pico_estrella := Val "March";
          max_ventas_estrella := 2 |} /\
  prep_volumen_por_mes three_sales
  = Ok {| sales_volume_by_month := Some (month_table three_sales);
          peak_sales_month := Val "March";
          peak_sales_month_volume := 2 |} /\
  map fst (trend_table "Latte" three_sales)
  = map fst (month_table three_sales) /\
  (forall m n n', In (m, n) (trend_table "Latte" three_sales) ->
                  In (m, n') (month_table three_sales) -> n <= n') /\
  2 <= 2.
Proof.
  assert (H2 : prep_cafe_estrella three_sales
               = Ok {| cafe_mas_vendido_ano := Val "Latte";
                       ventas_cafe_estrella_mes :=
                         Some (trend_table "Latte" three_sales);
                       mes_pico_estrella := Val "March";
                       max_ventas_estrella := 2 |}) by reflexivity.
  assert (H3 : prep_volumen_por_mes three_sales
               = Ok {| sales_volume_by_month :=
                         Some (month_table three_sales);
                       peak_sales_month := Val "March";
                       peak_sales_month_volume := 2 |}) by reflexivity.
  refine (conj H2 (conj H3 _)).
  exact (X19_trend_below_month_table three_sales _ _ _ _ H2 H3
           eq_refl eq_refl).
Defined.
